(** * Candidate tracker of Smart_Ai_Recruiter_V1: a model of
    [utils_v2/tracker.py] and the properties of its identity resolution,
    conflict classification and status assignment.

    The three functions of the module are embedded as pure functions over
    an explicit store (the tracker workbook of one position folder):
    [check_candidate_status_in_tracker], [update_tracker_excel] and
    [update_cv_conversion_status]. *)

From stdpp Require Import gmap strings list.
From Stdlib Require Import Ascii NArith.

Local Open Scope string_scope.
Local Open Scope list_scope.
Set Warnings "-clear-no-such-hyp".

(** ** Python strings *)

Module PyStr.

(** Characters are code points below 256. [str.isspace] holds of the
    ASCII controls 9..13 and 28..31, of the space, and of U+0085 and
    U+00A0; both [str.strip()] and the regex class [\s] use it. *)
Definition isspace (a : ascii) : bool :=
  let n := N_of_ascii a in
  ((9 <=? n) && (n <=? 13) || (28 <=? n) && (n <=? 32)
   || (n =? 133) || (n =? 160))%N.

(** [str.lower] on one character: A..Z and the accented capitals
    U+00C0..U+00DE (the multiplication sign U+00D7 apart). *)
Definition lower_char (a : ascii) : ascii :=
  let n := N_of_ascii a in
  if ((65 <=? n) && (n <=? 90)
      || (192 <=? n) && (n <=? 222) && negb (n =? 215))%N
  then ascii_of_N (n + 32) else a.

Fixpoint lower (s : string) : string :=
  match s with
  | EmptyString => EmptyString
  | String a s' => String (lower_char a) (lower s')
  end.

Fixpoint lstrip (s : string) : string :=
  match s with
  | EmptyString => EmptyString
  | String a s' => if isspace a then lstrip s' else s
  end.

Fixpoint rstrip (s : string) : string :=
  match s with
  | EmptyString => EmptyString
  | String a s' =>
      match rstrip s' with
      | EmptyString => if isspace a then EmptyString else String a EmptyString
      | r => String a r
      end
  end.

(** [s.strip()] *)
Definition strip (s : string) : string := rstrip (lstrip s).

(** [re.sub(r'[\s\-\(\)]', '', s)] *)
Fixpoint re_sub_separators (s : string) : string :=
  match s with
  | EmptyString => EmptyString
  | String a s' =>
      if isspace a || bool_decide (a = "-"%char)
         || bool_decide (a = "("%char) || bool_decide (a = ")"%char)
      then re_sub_separators s'
      else String a (re_sub_separators s')
  end.

Fixpoint rev_onto (s acc : string) : string :=
  match s with
  | EmptyString => acc
  | String a s' => rev_onto s' (String a acc)
  end.

(** [s.endswith(suffix)] *)
Definition endswith (s suffix : string) : bool :=
  String.prefix (rev_onto suffix "") (rev_onto s "").

(** [s.startswith(p)] *)
Definition startswith (s p : string) : bool := String.prefix p s.

End PyStr.

(** ** Values held by dictionaries and cells *)

(** A cell of the workbook, or a value of the candidate dictionary, is a
    string, the float NaN that pandas uses for a blank cell, or a number.
    The tracker never computes with numbers: it stores them and prints
    them in [astype(str)]; a number is kept as the text [str] gives
    for it. *)
Inductive value : Type :=
  | VNaN
  | VStr (s : string)
  | VNum (shown : string).

Global Instance value_eq_dec : EqDecision value.
Proof. solve_decision. Defined.

(** [str(v)] *)
Definition py_str (v : value) : string :=
  match v with
  | VNaN => "nan"
  | VStr s => s
  | VNum t => t
  end.

(** Truth value of [v] in an [if]: the empty string and zero are false. *)
Definition truthy (v : value) : bool :=
  match v with
  | VNaN => true
  | VStr s => negb (bool_decide (s = ""))
  | VNum t => negb (bool_decide (t ∈ ["0"; "0.0"; "-0.0"]))
  end.

(** [pd.notna(v)] *)
Definition notna (v : value) : bool :=
  match v with VNaN => false | _ => true end.

(** [str(v).strip().lower()] *)
Definition norm (v : value) : string := PyStr.lower (PyStr.strip (py_str v)).

(** The sentinel lists of the source. *)
Definition sentinels2 : list string := ["not found"; ""].
Definition sentinels4 : list string := ["not found"; ""; "nan"; "none"].

Definition isin (x : string) (l : list string) : bool := bool_decide (x ∈ l).

(** Truth value of a normalised field that may be [None]. *)
Definition some_truthy (o : option string) : bool :=
  match o with
  | Some s => negb (bool_decide (s = ""))
  | None => false
  end.

(** [str(x).strip().lower() if x and str(x).strip().lower() not in
    ['not found', ''] else None] *)
Definition norm_field (x : value) : option string :=
  if truthy x && negb (isin (norm x) sentinels2) then Some (norm x) else None.


(** [if contact_number_norm: contact_number_norm = re.sub(...)] *)
Definition strip_contact (o : option string) : option string :=
  if some_truthy o then PyStr.re_sub_separators <$> o else o.

(** [str(vendor_name).strip().lower() if vendor_name else ""] *)
Definition vendor_norm (vendor_name : string) : string :=
  if truthy (VStr vendor_name) then norm (VStr vendor_name) else "".

(** ** Python dictionaries and lists *)

(** [candidate_details] is a dictionary whose key order is the order of
    insertion, which later decides the order of new columns. *)
Definition pydict : Type := list (string * value).

Fixpoint dict_lookup (d : pydict) (k : string) : option value :=
  match d with
  | [] => None
  | (k', v) :: d' => if bool_decide (k' = k) then Some v else dict_lookup d' k
  end.

(** [d.get(k, dflt)] *)
Definition dict_get (d : pydict) (k : string) (dflt : value) : value :=
  default dflt (dict_lookup d k).

(** [d[k] = v]: a present key keeps its place, a new one goes last. *)
Fixpoint dict_set (d : pydict) (k : string) (v : value) : pydict :=
  match d with
  | [] => [(k, v)]
  | (k', v') :: d' =>
      if bool_decide (k' = k) then (k, v) :: d' else (k', v') :: dict_set d' k v
  end.

(** [d.keys()] *)
Definition dict_keys (d : pydict) : list string := d.*1.

(** [l.remove(x)]: the first occurrence goes. *)
Fixpoint list_remove (x : string) (l : list string) : list string :=
  match l with
  | [] => []
  | y :: l' => if bool_decide (y = x) then l' else y :: list_remove x l'
  end.

(** [l.insert(i, x)] *)
Definition list_insert_at (i : nat) (x : string) (l : list string) : list string :=
  take i l ++ x :: drop i l.

(** [l.index(x)], for an [x] that occurs in [l]. *)
Fixpoint list_index (x : string) (l : list string) : nat :=
  match l with
  | [] => 0
  | y :: l' => if bool_decide (y = x) then 0 else S (list_index x l')
  end.

Definition contains (x : string) (l : list string) : bool := bool_decide (x ∈ l).

(** ** Data frames *)

Record DataFrame : Type := mkDF {
  columns : list string;
  rows : list (gmap string value)
}.

(** A cell without a value reads as NaN. *)
Definition cell (r : gmap string value) (c : string) : value :=
  default VNaN (r !! c).

(** [pd.DataFrame()] *)
Definition empty_frame : DataFrame := mkDF [] [].

(** [df.empty]: no row or no column. *)
Definition df_empty (df : DataFrame) : bool :=
  bool_decide (columns df = []) || bool_decide (rows df = []).

(** [pd.DataFrame([d])] *)
Definition frame_of_dict (d : pydict) : DataFrame :=
  mkDF (dict_keys d) [list_to_map d].

(** [df[c] = f(row)] for every row; a new column goes last. *)
Definition set_column (df : DataFrame) (c : string)
    (f : gmap string value → value) : DataFrame :=
  mkDF (if contains c (columns df) then columns df else columns df ++ [c])
       ((λ r, <[c := f r]> r) <$> rows df).

(** [df.drop(columns=[c])] *)
Definition drop_column (df : DataFrame) (c : string) : DataFrame :=
  mkDF (List.filter (λ c', negb (bool_decide (c' = c))) (columns df))
       (delete c <$> rows df).

(** [df[cols]] *)
Definition select (df : DataFrame) (cols : list string) : DataFrame :=
  mkDF cols (filter (λ kv, kv.1 ∈ cols) <$> rows df).

(** [df.loc[i, c] = v] for a row label [i] of the frame. *)
Definition set_cell (df : DataFrame) (i : nat) (c : string) (v : value)
    : DataFrame :=
  mkDF (if contains c (columns df) then columns df else columns df ++ [c])
       (alter (λ r, <[c := v]> r) i (rows df)).

(** [df.loc[mask, c] = v] *)
Definition set_where (df : DataFrame) (mask : gmap string value → bool)
    (c : string) (v : value) : DataFrame :=
  mkDF (if contains c (columns df) then columns df else columns df ++ [c])
       ((λ r, if mask r then <[c := v]> r else r) <$> rows df).

(** [pd.concat([df1, df2], ignore_index=True)] *)
Definition concat (df1 df2 : DataFrame) : DataFrame :=
  mkDF (columns df1
          ++ List.filter (λ c, negb (contains c (columns df1))) (columns df2))
       (rows df1 ++ rows df2).

(** [row.get(c, dflt)] on a row of [df] *)
Definition row_get (df : DataFrame) (r : gmap string value) (c : string)
    (dflt : value) : value :=
  if contains c (columns df) then cell r c else dflt.

(** ** The store: the workbook of one position folder *)

Inductive store : Type :=
  | Missing
  | Corrupt (err : string)
  | Sheet (df : DataFrame).

(** [os.path.exists(excel_path)] *)
Definition path_exists (st : store) : bool :=
  match st with Missing => false | _ => true end.

(** A workbook holds the cells under its headers, and a cell written as
    the empty string comes back blank, which pandas reads as NaN. Every
    other cell is taken to come back as it was written: the texts that
    the reader of pandas itself takes for missing values (such as "NA" or
    "null") and the texts that it reads as numbers are left out of the
    model. *)
Definition sheet_cells (df : DataFrame) : DataFrame :=
  mkDF (columns df)
       (filter (λ kv, kv.1 ∈ columns df ∧ kv.2 ≠ VStr "") <$> rows df).

(** [pd.read_excel(excel_path)]; [None] when it raises. *)
Definition read_excel (st : store) : option DataFrame :=
  match st with
  | Sheet df => Some (sheet_cells df)
  | _ => None
  end.

(** [df.to_excel(excel_path, index=False)] *)
Definition to_excel (df : DataFrame) : store := Sheet df.

(** ** Column names and constants of the tracker *)

Definition first_columns : list string :=
  ["Vendor_Name"; "Profile_Shared_Date"; "Profile_Remark"].

Definition manual_columns : list string :=
  ["R1_Schedule_Date"; "R1_Panel_Name"; "R1_Feedback"; "R1_Status";
   "R2_Schedule_Date"; "R2_Panel_Name"; "R2_Feedback"; "R2_Status";
   "CV_Conversion_Status"; "CV_Converted_Path"].

(** ** Matching rows *)

Abbreviation row := (gmap string value).

(** [df['Email_ID'].astype(str).str.strip().str.lower()], at one row *)
Definition email_norm_of (r : row) : string := norm (cell r "Email_ID").

(** [df_name_norm], at one row *)
Definition name_norm_of (r : row) : string := norm (cell r "Candidate_Name").

(** [df_contact_norm] after the [apply], at one row *)
Definition contact_norm_of (r : row) : string :=
  let x := norm (cell r "Contact_Number") in
  if isin x sentinels4 then x else PyStr.re_sub_separators x.

(** [valid_rows] of the name and phone check, at one row *)
Definition valid_name_contact (r : row) : bool :=
  negb (isin (name_norm_of r) sentinels4)
  && negb (isin (contact_norm_of r) sentinels4).

(** [valid_rows] of the name and vendor fallback, at one row *)
Definition valid_name (r : row) : bool :=
  negb (isin (name_norm_of r) sentinels4).

Definition email_is (e : string) (r : row) : bool :=
  bool_decide (email_norm_of r = e).

Definition name_is (n : string) (r : row) : bool :=
  bool_decide (name_norm_of r = n).

Definition contact_is (p : string) (r : row) : bool :=
  bool_decide (contact_norm_of r = p).

(** [str(row['Vendor_Name']).strip().lower() if pd.notna(row['Vendor_Name'])
    else ""] *)
Definition existing_vendor (r : row) : string :=
  if notna (cell r "Vendor_Name") then norm (cell r "Vendor_Name") else "".

(** [vendor_name_norm and existing_vendor and
    vendor_name_norm == existing_vendor] *)
Definition is_same_vendor (vendor_name_norm : string) (r : row) : bool :=
  negb (bool_decide (vendor_name_norm = ""))
  && negb (bool_decide (existing_vendor r = ""))
  && bool_decide (vendor_name_norm = existing_vendor r).

(** [vendor_name_norm and existing_vendor and
    vendor_name_norm != existing_vendor] *)
Definition is_other_vendor (vendor_name_norm : string) (r : row) : bool :=
  negb (bool_decide (vendor_name_norm = ""))
  && negb (bool_decide (existing_vendor r = ""))
  && negb (bool_decide (vendor_name_norm = existing_vendor r)).

(** The loop over [matching_rows.iterrows()] that stops at the first row
    of the same vendor. *)
Definition same_vendor_row (vendor_name_norm : string) (matching_rows : list row)
    : option row :=
  List.find (is_same_vendor vendor_name_norm) matching_rows.

(** The label of the first row that satisfies [p]: [df[mask].index[0]]
    on a frame whose labels are 0, 1, ... as [read_excel] gives them. *)
Fixpoint first_index (p : row → bool) (l : list row) : option nat :=
  match l with
  | [] => None
  | r :: l' => if p r then Some 0 else S <$> first_index p l'
  end.

(** ** [check_candidate_status_in_tracker] *)

Record CheckResult : Type := mkCheck {
  c_exists : bool;
  c_status : option value;
  c_reason : string;
  c_remark : value
}.

Definition absent : CheckResult := mkCheck false None "" (VStr "").

(** The answer for a row found: its status and remark under [reason]. *)
Definition found (df : DataFrame) (r : row) (reason : string) : CheckResult :=
  mkCheck true
    (Some (row_get df r "Resume_Screening_Status" (VStr "Unknown")))
    reason
    (row_get df r "Profile_Remark" (VStr "")).

(** Lines 60-82 and 101-123: the same vendor in any matching row blocks,
    otherwise the first matching row is reported as of another vendor. *)
Definition classify (df : DataFrame) (vendor_name_norm key : string)
    (matching_rows : list row) (first : row) : CheckResult :=
  match (if contains "Vendor_Name" (columns df)
         then same_vendor_row vendor_name_norm matching_rows else None) with
  | Some same => found df same (key +:+ "_same_vendor")
  | None => found df first (key +:+ "_different_vendor")
  end.

(** Lines 54-82 *)
Definition check_by_email (df : DataFrame) (email_id_norm : option string)
    (vendor_name_norm : string) : option CheckResult :=
  match email_id_norm with
  | Some e =>
      if some_truthy email_id_norm && contains "Email_ID" (columns df) then
        let existing_emails := email_norm_of <$> rows df in
        let valid_emails :=
          List.filter (λ x, negb (isin x sentinels4)) existing_emails in
        if negb (bool_decide (valid_emails = [])) && isin e valid_emails then
          let matching_rows := List.filter (email_is e) (rows df) in
          match matching_rows with
          | first :: _ =>
              Some (classify df vendor_name_norm "email" matching_rows first)
          | [] => None
          end
        else None
      else None
  | None => None
  end.

(** Lines 85-123 *)
Definition check_by_name_phone (df : DataFrame)
    (candidate_name_norm contact_number_norm : option string)
    (vendor_name_norm : string) : option CheckResult :=
  match candidate_name_norm, contact_number_norm with
  | Some n, Some p =>
      if some_truthy candidate_name_norm && some_truthy contact_number_norm
         && contains "Candidate_Name" (columns df)
         && contains "Contact_Number" (columns df) then
        let valid := List.filter valid_name_contact (rows df) in
        match valid with
        | _ :: _ =>
            let matching_rows :=
              List.filter (λ r, name_is n r && contact_is p r) valid in
            match matching_rows with
            | first :: _ =>
                Some (classify df vendor_name_norm "name_and_phone"
                        matching_rows first)
            | [] => None
            end
        | [] => None
        end
      else None
  | _, _ => None
  end.

(** Lines 128-153 *)
Definition check_by_name_vendor (df : DataFrame)
    (candidate_name_norm contact_number_norm : option string)
    (vendor_name_norm : string) : option CheckResult :=
  match candidate_name_norm with
  | Some n =>
      if some_truthy candidate_name_norm
         && negb (some_truthy contact_number_norm)
         && negb (bool_decide (vendor_name_norm = ""))
         && contains "Candidate_Name" (columns df)
         && contains "Vendor_Name" (columns df) then
        let valid := List.filter valid_name (rows df) in
        match valid with
        | _ :: _ =>
            let matching_rows := List.filter (name_is n) valid in
            match matching_rows with
            | _ :: _ =>
                match same_vendor_row vendor_name_norm matching_rows with
                | Some same => Some (found df same "name_and_vendor_same_vendor")
                | None => None
                end
            | [] => None
            end
        | [] => None
        end
      else None
  | None => None
  end.

(** The candidate's three identity fields as the source normalises them. *)
Definition email_id_norm (candidate_details : pydict) : option string :=
  norm_field (dict_get candidate_details "Email_ID" (VStr "")).

Definition candidate_name_norm (candidate_details : pydict) : option string :=
  norm_field (dict_get candidate_details "Candidate_Name" (VStr "")).

Definition contact_number_norm (candidate_details : pydict) : option string :=
  strip_contact (norm_field (dict_get candidate_details "Contact_Number" (VStr ""))).

(** The tiers in the order of the source, over a loaded frame. *)
Definition check_frame (candidate_details : pydict) (df : DataFrame)
    (vendor_name : string) : CheckResult :=
  let v := vendor_norm vendor_name in
  let e := email_id_norm candidate_details in
  let n := candidate_name_norm candidate_details in
  let p := contact_number_norm candidate_details in
  match check_by_email df e v with
  | Some res => res
  | None =>
      match check_by_name_phone df n p v with
      | Some res => res
      | None =>
          match check_by_name_vendor df n p v with
          | Some res => res
          | None => absent
          end
      end
  end.

(** [folder_name] is given by the store of its tracker workbook. *)
Definition check_candidate_status_in_tracker (candidate_details : pydict)
    (folder : store) (vendor_name : string) : CheckResult :=
  if negb (path_exists folder) then absent
  else
    match read_excel folder with
    | None => absent
    | Some df =>
        if df_empty df then absent
        else check_frame candidate_details df vendor_name
    end.

(** ** [update_tracker_excel] *)

(** What the function hands back, with the two objects it changes: the
    store and the caller's dictionary. The path, which only depends on
    the folder name, is left out. *)
Record UpdateResult : Type := mkUpdate {
  u_store : store;
  u_details : pydict;
  u_added : bool;
  u_reason : string;
  u_remark : value;
  u_status : option value
}.

(** The arguments that only feed the new or overwritten fields;
    [today] is [datetime.now().strftime('%Y-%m-%d')]. *)
Record Screening : Type := mkScreening {
  tracker_type : string;
  feedback : string;
  similarity_score : value;
  average_score : value;
  cv_path : string;
  profile_shared_date : option string;
  today : string
}.

Definition is_shortlisted (s : Screening) : bool :=
  bool_decide (PyStr.lower (tracker_type s) = "shortlisted").

Definition is_rejected (s : Screening) : bool :=
  bool_decide (PyStr.lower (tracker_type s) = "rejected").

(** Line 201 *)
Definition desired_status (s : Screening) : string :=
  if is_shortlisted s then "Shortlisted" else "Rejected".

(** Lines 245-260: the row the override would overwrite. *)
Definition override_index (candidate_details : pydict) (df : DataFrame)
    : option nat :=
  let e := email_id_norm candidate_details in
  let n := candidate_name_norm candidate_details in
  let p := contact_number_norm candidate_details in
  if some_truthy e && contains "Email_ID" (columns df) then
    first_index (email_is (default "" e)) (rows df)
  else if some_truthy n && some_truthy p
          && contains "Candidate_Name" (columns df)
          && contains "Contact_Number" (columns df) then
    if existsb valid_name_contact (rows df) then
      first_index (λ r, valid_name_contact r
                        && name_is (default "" n) r
                        && contact_is (default "" p) r) (rows df)
    else None
  else None.

(** Lines 228-277: the store after an override, [None] when the block
    falls through to the code that adds a row. *)
Definition admin_override (candidate_details : pydict) (folder : store)
    (s : Screening) : option store :=
  match read_excel folder with
  | None => None
  | Some df =>
      match override_index candidate_details df with
      | None => None
      | Some i =>
          let df := set_cell df i "Resume_Screening_Status"
                      (VStr (desired_status s)) in
          let df := set_cell df i "Screening_Date" (VStr (today s)) in
          let df := set_cell df i "Resume_Screening_Feedback"
                      (VStr (feedback s)) in
          let df := set_cell df i "Similarity_Score" (similarity_score s) in
          let df := set_cell df i "Average_Score" (average_score s) in
          let df :=
            if is_shortlisted s && truthy (VStr (cv_path s)) then
              set_cell df i "Shortlisted_CV_Path" (VStr (cv_path s))
            else if is_rejected s then
              set_cell df i "Shortlisted_CV_Path" (VStr "")
            else df in
          Some (to_excel df)
      end
  end.

(** Lines 289-292 *)
Definition rename_legacy (df : DataFrame) : DataFrame :=
  if contains "Date_Shortlisted" (columns df) then
    let df :=
      if negb (contains "Screening_Date" (columns df))
      then set_column df "Screening_Date" (λ r, cell r "Date_Shortlisted")
      else df in
    drop_column df "Date_Shortlisted"
  else df.

(** Lines 293-297 *)
Definition retag_duplicates (df : DataFrame) : DataFrame :=
  if contains "Profile_Remark" (columns df)
     && contains "Resume_Screening_Status" (columns df) then
    set_where df
      (λ r, bool_decide (norm (cell r "Profile_Remark") = "duplicate profile"))
      "Resume_Screening_Status" (VStr "Duplicate Profile")
  else df.

(** Lines 314-316 *)
Definition add_manual_columns (df : DataFrame) : DataFrame :=
  foldl (λ df col,
           if negb (contains col (columns df))
           then set_column df col (λ _, VStr "") else df)
        df manual_columns.

(** Lines 285-320: the frame the new row is added to. *)
Definition load_tracker (folder : store) : DataFrame :=
  if path_exists folder then
    match read_excel folder with
    | Some df => add_manual_columns (retag_duplicates (rename_legacy df))
    | None => empty_frame
    end
  else empty_frame.

(** A [return] out of the second duplicate check, or the remark so far. *)
Inductive Outcome : Type :=
  | Blocked (reason : string) (remark status : value)
  | Remark (profile_remark : string).

Definition and_then (o : Outcome) (k : string → Outcome) : Outcome :=
  match o with
  | Blocked reason remark status => Blocked reason remark status
  | Remark profile_remark => k profile_remark
  end.

Definition blocked_by (df : DataFrame) (r : row) (reason : string) : Outcome :=
  Blocked reason (row_get df r "Profile_Remark" (VStr ""))
          (row_get df r "Resume_Screening_Status" (VStr "Unknown")).

(** Lines 338-354 *)
Definition recheck_email (df : DataFrame) (e : option string)
    (vendor_name_norm profile_remark : string) : Outcome :=
  if some_truthy e && contains "Email_ID" (columns df) then
    let existing_emails := email_norm_of <$> rows df in
    let valid_emails :=
      List.filter (λ x, negb (isin x sentinels4)) existing_emails in
    if negb (bool_decide (valid_emails = []))
       && isin (default "" e) valid_emails then
      let matching_rows := List.filter (email_is (default "" e)) (rows df) in
      match matching_rows with
      | first :: _ =>
          if contains "Vendor_Name" (columns df) then
            match same_vendor_row vendor_name_norm matching_rows with
            | Some same => blocked_by df same "email_same_vendor"
            | None =>
                if is_other_vendor vendor_name_norm first
                then Remark "Duplicate Profile" else Remark profile_remark
            end
          else Remark profile_remark
      | [] => Remark profile_remark
      end
    else Remark profile_remark
  else Remark profile_remark.

(** Lines 357-379 *)
Definition recheck_name_phone (df : DataFrame) (n p : option string)
    (vendor_name_norm profile_remark : string) : Outcome :=
  if bool_decide (profile_remark = "Unique Profile")
     && some_truthy n && some_truthy p then
    if contains "Candidate_Name" (columns df)
       && contains "Contact_Number" (columns df) then
      let valid := List.filter valid_name_contact (rows df) in
      match valid with
      | _ :: _ =>
          let matching_rows :=
            List.filter (λ r, name_is (default "" n) r
                              && contact_is (default "" p) r) valid in
          match matching_rows with
          | first :: _ =>
              if contains "Vendor_Name" (columns df) then
                match same_vendor_row vendor_name_norm matching_rows with
                | Some same => blocked_by df same "name_and_phone_same_vendor"
                | None =>
                    if is_other_vendor vendor_name_norm first
                    then Remark "Duplicate Profile" else Remark profile_remark
                end
              else Remark profile_remark
          | [] => Remark profile_remark
          end
      | [] => Remark profile_remark
      end
    else Remark profile_remark
  else Remark profile_remark.

(** Lines 384-401 *)
Definition recheck_name_vendor (df : DataFrame) (n p : option string)
    (vendor_name_norm profile_remark : string) : Outcome :=
  if bool_decide (profile_remark = "Unique Profile")
     && some_truthy n && negb (some_truthy p)
     && negb (bool_decide (vendor_name_norm = "")) then
    if contains "Candidate_Name" (columns df)
       && contains "Vendor_Name" (columns df) then
      let valid := List.filter valid_name (rows df) in
      match valid with
      | _ :: _ =>
          let matching_rows := List.filter (name_is (default "" n)) valid in
          match matching_rows with
          | _ :: _ =>
              match same_vendor_row vendor_name_norm matching_rows with
              | Some same => blocked_by df same "name_and_vendor_same_vendor"
              | None => Remark profile_remark
              end
          | [] => Remark profile_remark
          end
      | [] => Remark profile_remark
      end
    else Remark profile_remark
  else Remark profile_remark.

(** Lines 323-401: the second duplicate check, on the frame to extend. *)
Definition recheck (candidate_details : pydict) (df : DataFrame)
    (vendor_name profile_remark : string) : Outcome :=
  let v := vendor_norm vendor_name in
  if negb (df_empty df) then
    let e := email_id_norm candidate_details in
    let n := candidate_name_norm candidate_details in
    let p := contact_number_norm candidate_details in
    and_then (recheck_email df e v profile_remark) (λ profile_remark,
    and_then (recheck_name_phone df n p v profile_remark) (λ profile_remark,
    recheck_name_vendor df n p v profile_remark))
  else Remark profile_remark.

(** Lines 404-461: the fields the function writes into the caller's
    dictionary before it makes the new row of it. *)
Definition fill_details (candidate_details : pydict) (s : Screening)
    (vendor_name profile_remark : string) : pydict :=
  let d := candidate_details in
  let d := dict_set d "Vendor_Name"
             (VStr (if truthy (VStr vendor_name) then vendor_name else "")) in
  let d := dict_set d "Profile_Shared_Date"
             (VStr (match profile_shared_date s with
                    | Some date => if truthy (VStr date) then date else ""
                    | None => ""
                    end)) in
  let d := dict_set d "Profile_Remark" (VStr profile_remark) in
  let d := dict_set d "Resume_Screening_Feedback" (VStr (feedback s)) in
  let d := dict_set d "Similarity_Score" (similarity_score s) in
  let d := dict_set d "Average_Score" (average_score s) in
  let d := dict_set d "Shortlisted_CV_Path"
             (VStr (if is_shortlisted s && truthy (VStr (cv_path s))
                    then cv_path s else "")) in
  let d := dict_set d "Resume_Screening_Status"
             (VStr (if bool_decide (profile_remark = "Duplicate Profile")
                    then "Duplicate Profile" else desired_status s)) in
  let d := dict_set d "Screening_Date" (VStr (today s)) in
  let d := if negb (contains "Position" (dict_keys d))
           then dict_set d "Position" (VStr "Not Found") else d in
  foldl (λ d col, dict_set d col (VStr "")) d manual_columns.

(** [for col in cols: if col not in new_row.columns:
    new_row[col] = candidate_details.get(col, '')] *)
Definition fill_missing (d : pydict) (new_row : DataFrame) (cols : list string)
    : DataFrame :=
  foldl (λ new_row col,
           if negb (contains col (columns new_row))
           then set_column new_row col (λ _, dict_get d col (VStr ""))
           else new_row)
        new_row cols.

(** Lines 470-509: the tracker has rows; both frames get the same
    columns, the first three in front. *)
Definition align_to_existing (d : pydict) (df new_row : DataFrame)
    : DataFrame * DataFrame :=
  let existing_cols :=
    foldl (λ cols col, if contains col cols then list_remove col cols else cols)
          (columns df) first_columns in
  let new_row := fill_missing d new_row existing_cols in
  let new_row := select new_row existing_cols in
  let new_cols :=
    List.filter (λ col, negb (contains col existing_cols)
                        && negb (contains col first_columns)) (dict_keys d) in
  let df := foldl (λ df col, set_column df col (λ _, VStr "")) df new_cols in
  let new_row :=
    foldl (λ new_row col, set_column new_row col (λ _, dict_get d col (VStr "")))
          new_row new_cols in
  let existing_cols := existing_cols ++ new_cols in
  let df :=
    foldl (λ df col,
             if negb (contains col (columns df))
             then set_column df col (λ _, VStr "") else df)
          df first_columns in
  let final_cols :=
    first_columns
      ++ List.filter (λ col, negb (contains col first_columns)) existing_cols in
  let df := select df final_cols in
  let new_row :=
    select new_row
      (List.filter (λ col, contains col (columns new_row)) final_cols) in
  let new_row := fill_missing d new_row final_cols in
  (df, select new_row final_cols).

(** Lines 510-519: the tracker is empty; the row takes the order of the
    dictionary behind the first three columns. *)
Definition align_to_details (d : pydict) (new_row : DataFrame) : DataFrame :=
  let all_cols :=
    first_columns
      ++ List.filter (λ col, negb (contains col first_columns)) (dict_keys d) in
  let new_row :=
    select new_row
      (List.filter (λ col, contains col (columns new_row)) all_cols) in
  foldl (λ new_row col,
           let new_row :=
             if negb (contains col (columns new_row))
             then set_column new_row col (λ _, dict_get d col (VStr ""))
             else new_row in
           select new_row all_cols)
        new_row all_cols.

(** Lines 524-528 *)
Definition first_columns_to_front (cols : list string) : list string :=
  foldl (λ cols ic,
           if contains ic.2 cols
           then list_insert_at ic.1 ic.2 (list_remove ic.2 cols) else cols)
        cols (imap (λ i col, (i, col)) first_columns).

(** Lines 531-536 *)
Definition position_after_email (cols : list string) : list string :=
  if contains "Email_ID" cols && contains "Position" cols then
    let email_idx := list_index "Email_ID" cols in
    let pos_idx := list_index "Position" cols in
    if negb (bool_decide (pos_idx = email_idx + 1)) then
      list_insert_at (email_idx + 1) "Position" (list_remove "Position" cols)
    else cols
  else cols.

(** Lines 553-557 *)
Definition manual_columns_to_end (cols : list string) : list string :=
  foldl (λ cols col, if contains col cols then list_remove col cols else cols)
        cols manual_columns
    ++ manual_columns.

(** Lines 523-560 *)
Definition final_order (cols : list string) : list string :=
  manual_columns_to_end (position_after_email (first_columns_to_front cols)).

(** Lines 403-565: the new row is made, added and saved. *)
Definition add_candidate (candidate_details : pydict) (df : DataFrame)
    (s : Screening) (vendor_name profile_remark : string) : UpdateResult :=
  let d := fill_details candidate_details s vendor_name profile_remark in
  let new_row := frame_of_dict d in
  let '(df, new_row) :=
    if negb (df_empty df) then align_to_existing d df new_row
    else (df, align_to_details d new_row) in
  let df := concat df new_row in
  let df := select df (final_order (columns df)) in
  mkUpdate (to_excel df) d true "" (VStr profile_remark) None.

(** Lines 279-565: what follows the first-come-first-serve check. *)
Definition add_or_block (candidate_details : pydict) (folder : store)
    (s : Screening) (vendor_name : string)
    (is_different_vendor_duplicate : bool) : UpdateResult :=
  let profile_remark :=
    if is_different_vendor_duplicate
    then "Duplicate Profile" else "Unique Profile" in
  let df := load_tracker folder in
  match (if negb is_different_vendor_duplicate
         then recheck candidate_details df vendor_name profile_remark
         else Remark profile_remark) with
  | Blocked reason remark status =>
      mkUpdate folder candidate_details false reason remark (Some status)
  | Remark profile_remark =>
      add_candidate candidate_details df s vendor_name profile_remark
  end.

Definition update_tracker_excel (candidate_details : pydict) (folder : store)
    (s : Screening) (vendor_name : string) (allow_status_change : bool)
    : UpdateResult :=
  let chk := check_candidate_status_in_tracker candidate_details folder
               vendor_name in
  if c_exists chk then
    if PyStr.endswith (c_reason chk) "_same_vendor" then
      mkUpdate folder candidate_details false (c_reason chk) (c_remark chk)
               (c_status chk)
    else if PyStr.endswith (c_reason chk) "_different_vendor" then
      add_or_block candidate_details folder s vendor_name true
    else if negb allow_status_change then
      mkUpdate folder candidate_details false "already_exists" (c_remark chk)
               (c_status chk)
    else
      match admin_override candidate_details folder s with
      | Some folder' =>
          mkUpdate folder' candidate_details true "status_updated"
                   (c_remark chk) (Some (VStr (desired_status s)))
      | None => add_or_block candidate_details folder s vendor_name false
      end
  else add_or_block candidate_details folder s vendor_name false.

(** ** [update_cv_conversion_status] *)




(** ** The identity resolver and the conflict classifier, as specified *)

Module Spec.

(** A field counts when it is not empty and, once normalised, none of
    the sentinels "not found", "nan" and "none". *)
Definition field (v : value) : option string :=
  if truthy v && negb (isin (norm v) sentinels4) then Some (norm v) else None.

(** A phone number counts when, with blanks, hyphens and parentheses
    taken out, something other than a sentinel is left. *)
Definition phone (v : value) : option string :=
  match field v with
  | Some x =>
      let p := PyStr.re_sub_separators x in
      if isin p sentinels4 then None else Some p
  | None => None
  end.

(** The candidate's phone is absent: empty, "not found", or nothing but
    separators. *)
Definition phone_absent (v : value) : bool :=
  negb (truthy v) || isin (norm v) sentinels2
  || bool_decide (PyStr.re_sub_separators (norm v) = "").

Definition email_of (d : pydict) : value := dict_get d "Email_ID" (VStr "").
Definition name_of (d : pydict) : value := dict_get d "Candidate_Name" (VStr "").
Definition phone_of (d : pydict) : value := dict_get d "Contact_Number" (VStr "").

(** Tier 1: the rows of the candidate's email. *)
Definition email_matches (d : pydict) (table : list row) : list row :=
  match field (email_of d) with
  | Some e => List.filter (email_is e) table
  | None => []
  end.

(** Tier 2: the rows of the candidate's name and phone, both. *)
Definition name_phone_matches (d : pydict) (table : list row) : list row :=
  match field (name_of d), phone (phone_of d) with
  | Some n, Some p => List.filter (λ r, name_is n r && contact_is p r) table
  | _, _ => []
  end.

(** Tier 3, for a candidate without a phone: the rows of the
    candidate's name that the submitting vendor, not empty, stored. *)
Definition name_vendor_matches (d : pydict) (vendor_name : string)
    (table : list row) : list row :=
  match field (name_of d) with
  | Some n =>
      if phone_absent (phone_of d)
         && negb (bool_decide (vendor_norm vendor_name = ""))
      then List.filter
             (λ r, name_is n r && is_same_vendor (vendor_norm vendor_name) r)
             table
      else []
  | None => []
  end.

(** The identity key of a submission: its email, else its name and
    phone, else, without a phone, its name and its vendor. *)
Inductive identity : Type :=
  | Email (e : string)
  | NamePhone (n p : string)
  | NameVendor (n v : string).

Definition identity_key (d : pydict) (vendor_name : string)
    : option identity :=
  match field (email_of d) with
  | Some e => Some (Email e)
  | None =>
      match field (name_of d) with
      | Some n =>
          match phone (phone_of d) with
          | Some p => Some (NamePhone n p)
          | None =>
              if phone_absent (phone_of d)
                 && negb (bool_decide (vendor_norm vendor_name = ""))
              then Some (NameVendor n (vendor_norm vendor_name)) else None
          end
      | None => None
      end
  end.

(** A key that does not depend on the vendor. *)
Definition vendor_free (k : identity) : bool :=
  match k with NameVendor _ _ => false | _ => true end.

(** Two dictionaries with the same identity fields. *)
Definition same_fields (d d' : pydict) : Prop :=
  email_of d' = email_of d ∧ name_of d' = name_of d
  ∧ phone_of d' = phone_of d.

Inductive tier : Type := ByEmail | ByNamePhone | ByNameVendor.

Definition key (t : tier) : string :=
  match t with
  | ByEmail => "email"
  | ByNamePhone => "name_and_phone"
  | ByNameVendor => "name_and_vendor"
  end.

(** The first tier with a match, and its matches. *)
Definition resolve (d : pydict) (vendor_name : string) (table : list row)
    : option (tier * list row) :=
  match email_matches d table with
  | (_ :: _) as m => Some (ByEmail, m)
  | [] =>
      match name_phone_matches d table with
      | (_ :: _) as m => Some (ByNamePhone, m)
      | [] =>
          match name_vendor_matches d vendor_name table with
          | (_ :: _) as m => Some (ByNameVendor, m)
          | [] => None
          end
      end
  end.

Inductive classification : Type :=
  | Unique
  | SameVendorDuplicate (r : row)
  | DifferentVendorDuplicate (first : row).

(** A matched row of the submitting vendor wins over the others. *)
Definition classify (vendor_name : string) (matches : list row)
    : classification :=
  match matches with
  | [] => Unique
  | first :: _ =>
      match List.find (is_same_vendor (vendor_norm vendor_name)) matches with
      | Some r => SameVendorDuplicate r
      | None => DifferentVendorDuplicate first
      end
  end.

(** The classification as the check function reports it. *)
Definition report (df : DataFrame) (t : tier) (c : classification)
    : CheckResult :=
  match c with
  | Unique => absent
  | SameVendorDuplicate r => found df r (key t +:+ "_same_vendor")
  | DifferentVendorDuplicate first =>
      found df first (key t +:+ "_different_vendor")
  end.

Definition check (d : pydict) (df : DataFrame) (vendor_name : string)
    : CheckResult :=
  match resolve d vendor_name (rows df) with
  | Some (t, m) => report df t (classify vendor_name m)
  | None => absent
  end.



End Spec.

(** The rows a folder's tracker holds, none when there is no readable
    workbook. *)
Definition table_of (folder : store) : DataFrame :=
  default empty_frame (read_excel folder).

(** No row has a cell outside the columns. *)
Definition well_formed (df : DataFrame) : Prop :=
  ∀ r c, r ∈ rows df → c ∉ columns df → r !! c = None.

(** ** Notions used in the proofs *)

(** A cell as a later [read_excel] gives it back. *)
Definition stored (v : value) : value :=
  if bool_decide (v = VStr "") then VNaN else v.

(** [r'] is [r] on the columns [cols], and blank elsewhere. *)
Definition row_ext (cols : list string) (r r' : row) : Prop :=
  ∀ c, (c ∈ cols → r' !! c = r !! c)
       ∧ (c ∉ cols → r' !! c = None ∨ r' !! c = Some (VStr "")).

(** [df'] keeps the columns and the cells of [df]. *)
Definition extends (df df' : DataFrame) : Prop :=
  (∀ c, c ∈ columns df → c ∈ columns df')
  ∧ Forall2 (row_ext (columns df)) (rows df) (rows df').

(** The columns that loading the tracker may write. *)
Definition touched : list string :=
  ["Date_Shortlisted"; "Screening_Date"; "Resume_Screening_Status"]
    ++ manual_columns.

(** The cell of column [c] after lines 293-297 have retagged the rows
    whose remark is "Duplicate Profile". *)
Definition retagged (df : DataFrame) (r : row) (c : string) : value :=
  if bool_decide (c = "Resume_Screening_Status")
     && contains "Profile_Remark" (columns df)
     && bool_decide (norm (cell r "Profile_Remark") = "duplicate profile")
  then VStr "Duplicate Profile" else cell r c.

(** A frame of one row that holds, under each of its columns, what the
    dictionary has for it. *)
Definition row_of_dict (d : pydict) (F : DataFrame) : Prop :=
  ∃ r, rows F = [r]
       ∧ ∀ c, r !! c = if contains c (columns F)
                       then Some (dict_get d c (VStr "")) else None.

(** The keys that [fill_details] writes. *)
Definition written_keys : list string :=
  ["Vendor_Name"; "Profile_Shared_Date"; "Profile_Remark";
   "Resume_Screening_Feedback"; "Similarity_Score"; "Average_Score";
   "Shortlisted_CV_Path"; "Resume_Screening_Status"; "Screening_Date";
   "Position"] ++ manual_columns.

(** An old row after an addition: the cells that loading does not write
    are the same, and the others hold what loading made of them. *)
Definition kept (df0 : DataFrame) (r r' : row) : Prop :=
  (∀ c, c ∉ touched → r' !! c = r !! c)
  ∧ (∀ c, c ∈ columns df0 → c ≠ "Date_Shortlisted" →
       cell r' c = retagged df0 r c).

Definition same_identity (r r' : row) : Prop :=
  ∀ c, c ∉ touched → r' !! c = r !! c.

(** The status the new row gets under a remark. *)
Definition status_under (remark : string) (s : Screening) : string :=
  if bool_decide (remark = "Duplicate Profile")
  then "Duplicate Profile" else desired_status s.

(** The row matches the key. *)
Definition has_identity (k : Spec.identity) (r : row) : bool :=
  match k with
  | Spec.Email e => email_is e r
  | Spec.NamePhone n p => name_is n r && contact_is p r
  | Spec.NameVendor n v => name_is n r && is_same_vendor v r
  end.

Definition tier_of (k : Spec.identity) : Spec.tier :=
  match k with
  | Spec.Email _ => Spec.ByEmail
  | Spec.NamePhone _ _ => Spec.ByNamePhone
  | Spec.NameVendor _ _ => Spec.ByNameVendor
  end.

(** The row holds the identity fields of [d] and the vendor [V], as a
    later read gives them. *)
Definition records (d : pydict) (V : string) (r : row) : Prop :=
  cell r "Email_ID" = stored (Spec.email_of d)
  ∧ cell r "Candidate_Name" = stored (Spec.name_of d)
  ∧ cell r "Contact_Number" = stored (Spec.phone_of d)
  ∧ cell r "Vendor_Name" = stored (VStr V).



(** ** Running the model: the scenario of the tracker's documentation *)

Module Scenario.

Definition jane : pydict :=
  [("Candidate_Name", VStr "Jane Doe"); ("Contact_Number", VStr "Not Found");
   ("Email_ID", VStr "a@x.com"); ("Total_Experience", VStr "3 years");
   ("Location", VStr "Pune"); ("Position", VStr "Data Engineer")].

Definition shortlist : Screening :=
  mkScreening "shortlisted" "good fit" (VNum "0.8") (VNum "0.7")
              "/cv/jane.pdf" (Some "2025-01-02") "2025-01-03".

Definition reject : Screening :=
  mkScreening "rejected" "weak" (VNum "0.2") (VNum "0.1") "" None "2025-01-04".

Definition first := update_tracker_excel jane Missing shortlist "Acme" false.
Definition second :=
  update_tracker_excel (u_details first) (u_store first) reject "Acme" false.

(** A dictionary whose keys name the position before the email. *)
Definition position_first : pydict :=
  [("Candidate_Name", VStr "Jane Doe"); ("Position", VStr "Data Engineer");
   ("Email_ID", VStr "a@x.com"); ("Contact_Number", VStr "Not Found")].



End Scenario.

(** * Properties *)

#[local] Arguments Spec.classify : simpl never.

(** ** Lists filtered by boolean tests *)

Section BoolFilter.
Context {A : Type}.
Implicit Types (p q : A → bool) (l : list A).

Lemma filter_nil_existsb p l :
  List.filter p l = [] ↔ existsb p l = false.
Proof.
  induction l as [|x l IH]; simpl; [done|].
  destruct (p x); simpl; [split; discriminate | exact IH].
Qed.

Lemma filter_twice p q l :
  List.filter q (List.filter p l) = List.filter (λ x, p x && q x) l.
Proof.
  induction l as [|x l IH]; simpl; [done|].
  destruct (p x) eqn:Hp; simpl; [destruct (q x); by rewrite IH | exact IH].
Qed.

Lemma filter_agree p q l :
  (∀ x, x ∈ l → p x = q x) → List.filter p l = List.filter q l.
Proof.
  induction l as [|x l IH]; simpl; intros H; [done|].
  rewrite (H x) by left. rewrite IH; [done|].
  intros y Hy. apply H. by right.
Qed.

Lemma filter_none p l :
  (∀ x, x ∈ l → p x = false) → List.filter p l = [].
Proof.
  induction l as [|x l IH]; simpl; intros H; [done|].
  rewrite (H x) by left. apply IH. intros y Hy. apply H. by right.
Qed.

Lemma elem_of_bool_filter p l x :
  x ∈ List.filter p l ↔ x ∈ l ∧ p x = true.
Proof. rewrite !list_elem_of_In. apply filter_In. Qed.

Lemma find_filter_head p l : List.find p l = head (List.filter p l).
Proof.
  induction l as [|x l IH]; simpl; [done|]. by destruct (p x).
Qed.

Lemma find_none_iff p l :
  List.find p l = None ↔ ∀ x, x ∈ l → p x = false.
Proof.
  induction l as [|x l IH]; simpl.
  - split; [intros _ y Hy; inversion Hy | done].
  - destruct (p x) eqn:Hp.
    + split; [discriminate|]. intros H. specialize (H x). rewrite Hp in H.
      by discriminate H; left.
    + rewrite IH. split.
      * intros H y Hy. apply elem_of_cons in Hy as [->|Hy]; auto.
      * intros H y Hy. apply H. by right.
Qed.

Lemma find_some_elem p l x :
  List.find p l = Some x → x ∈ l ∧ p x = true.
Proof.
  intros H. apply List.find_some in H as [H1 H2].
  by rewrite list_elem_of_In.
Qed.
End BoolFilter.

(** ** Sentinels and normalised fields *)

Lemma isin_true x l : isin x l = true ↔ x ∈ l.
Proof. unfold isin. apply bool_decide_eq_true. Qed.

Lemma isin_false x l : isin x l = false ↔ x ∉ l.
Proof. unfold isin. apply bool_decide_eq_false. Qed.

Lemma contains_true x l : contains x l = true ↔ x ∈ l.
Proof. unfold contains. apply bool_decide_eq_true. Qed.

Lemma contains_false x l : contains x l = false ↔ x ∉ l.
Proof. unfold contains. apply bool_decide_eq_false. Qed.

Lemma sentinels2_sentinels4 x : x ∈ sentinels2 → x ∈ sentinels4.
Proof. unfold sentinels2, sentinels4. rewrite !elem_of_cons. naive_solver. Qed.

Lemma empty_sentinel4 : "" ∈ sentinels4.
Proof. unfold sentinels4. rewrite !elem_of_cons. naive_solver. Qed.

Lemma empty_sentinel2 : "" ∈ sentinels2.
Proof. unfold sentinels2. rewrite !elem_of_cons. naive_solver. Qed.

Lemma norm_field_Some v x :
  norm_field v = Some x → x = norm v ∧ truthy v = true ∧ x ∉ sentinels2.
Proof.
  unfold norm_field. destruct (truthy v); simpl; [|done].
  destruct (isin (norm v) sentinels2) eqn:H; simpl; [done|].
  intros [= <-]. by apply isin_false in H.
Qed.

Lemma norm_field_truthy v x : norm_field v = Some x → some_truthy (Some x) = true.
Proof.
  intros (-> & _ & H)%norm_field_Some. simpl.
  apply negb_true_iff, bool_decide_eq_false. intros E. apply H. rewrite E.
  apply empty_sentinel2.
Qed.

Lemma field_norm_field v :
  Spec.field v =
  match norm_field v with
  | Some x => if isin x sentinels4 then None else Some x
  | None => None
  end.
Proof.
  unfold Spec.field, norm_field. destruct (truthy v); simpl; [|done].
  destruct (isin (norm v) sentinels2) eqn:H2; simpl.
  - apply isin_true, sentinels2_sentinels4, isin_true in H2. by rewrite H2.
  - by destruct (isin (norm v) sentinels4).
Qed.

Lemma field_Some v x :
  Spec.field v = Some x ↔ norm_field v = Some x ∧ x ∉ sentinels4.
Proof.
  rewrite field_norm_field. destruct (norm_field v) as [y|]; [|naive_solver].
  destruct (isin y sentinels4) eqn:H.
  - apply isin_true in H. naive_solver.
  - apply isin_false in H. naive_solver.
Qed.

Lemma field_None v :
  Spec.field v = None ↔
  norm_field v = None ∨ ∃ x, norm_field v = Some x ∧ x ∈ sentinels4.
Proof.
  rewrite field_norm_field. destruct (norm_field v) as [y|]; [|naive_solver].
  destruct (isin y sentinels4) eqn:H.
  - apply isin_true in H. naive_solver.
  - apply isin_false in H. naive_solver.
Qed.

(** ** Frames read from a workbook *)

Lemma sheet_cells_well_formed df : well_formed (sheet_cells df).
Proof.
  intros r c Hr Hc. simpl in *.
  apply list_elem_of_fmap in Hr as (r0 & -> & _).
  apply map_lookup_filter_None. right. intros v _ [H _]. done.
Qed.

Lemma read_excel_well_formed folder df :
  read_excel folder = Some df → well_formed df.
Proof.
  destruct folder; simpl; try done. intros [= <-]. apply sheet_cells_well_formed.
Qed.

Lemma table_of_well_formed folder : well_formed (table_of folder).
Proof.
  unfold table_of. destruct (read_excel folder) eqn:E; simpl.
  - by eapply read_excel_well_formed.
  - intros r c Hr. inversion Hr.
Qed.

Section WellFormed.
Context (df : DataFrame) (Hwf : well_formed df).

Lemma cell_outside r c :
  r ∈ rows df → contains c (columns df) = false → cell r c = VNaN.
Proof.
  intros Hr Hc%contains_false. unfold cell. by rewrite (Hwf r c).
Qed.

Lemma email_outside r :
  r ∈ rows df → contains "Email_ID" (columns df) = false →
  email_norm_of r = "nan".
Proof. intros Hr Hc. unfold email_norm_of. by rewrite cell_outside. Qed.

Lemma name_outside r :
  r ∈ rows df → contains "Candidate_Name" (columns df) = false →
  name_norm_of r = "nan".
Proof. intros Hr Hc. unfold name_norm_of. by rewrite cell_outside. Qed.

Lemma contact_outside r :
  r ∈ rows df → contains "Contact_Number" (columns df) = false →
  contact_norm_of r = "nan".
Proof. intros Hr Hc. unfold contact_norm_of. by rewrite cell_outside. Qed.

Lemma vendor_outside v r :
  r ∈ rows df → contains "Vendor_Name" (columns df) = false →
  is_same_vendor v r = false.
Proof.
  intros Hr Hc. unfold is_same_vendor, existing_vendor.
  rewrite cell_outside by done. simpl. by rewrite andb_false_r.
Qed.
End WellFormed.

Lemma nan_sentinel4 : "nan" ∈ sentinels4.
Proof. unfold sentinels4. rewrite !elem_of_cons. naive_solver. Qed.

(** ** The tiers of the check function are the specified ones *)

Lemma name_is_valid n r :
  n ∉ sentinels4 → name_is n r = true → valid_name r = true.
Proof.
  unfold name_is, valid_name. intros Hn ->%bool_decide_eq_true.
  by apply negb_true_iff, isin_false.
Qed.

Lemma name_contact_is_valid n p r :
  n ∉ sentinels4 → p ∉ sentinels4 →
  name_is n r && contact_is p r = true → valid_name_contact r = true.
Proof.
  unfold name_is, contact_is, valid_name_contact.
  intros Hn Hp [->%bool_decide_eq_true ->%bool_decide_eq_true]%andb_true_iff.
  apply andb_true_iff; split; by apply negb_true_iff, isin_false.
Qed.

Lemma valid_emails_isin e (l : list row) :
  isin e (List.filter (λ x, negb (isin x sentinels4)) (email_norm_of <$> l))
  = negb (isin e sentinels4) && existsb (email_is e) l.
Proof.
  apply eq_true_iff_eq.
  rewrite isin_true, andb_true_iff, negb_true_iff, isin_false, existsb_exists.
  rewrite elem_of_bool_filter, list_elem_of_fmap. split.
  - intros [(r & -> & Hr) H]. apply negb_true_iff, isin_false in H.
    split; [done|]. exists r. split; [by apply list_elem_of_In|].
    by apply bool_decide_eq_true.
  - intros [H (r & Hr%list_elem_of_In & E%bool_decide_eq_true)]. split.
    + by exists r.
    + by apply negb_true_iff, isin_false.
Qed.

Lemma filter_cons_existsb {A} (p : A → bool) l x m :
  List.filter p l = x :: m → existsb p l = true.
Proof.
  intros H. destruct (existsb p l) eqn:E; [done|].
  apply filter_nil_existsb in E. congruence.
Qed.

Lemma classify_report df V t m first :
  well_formed df → (∀ r, r ∈ first :: m → r ∈ rows df) →
  classify df (vendor_norm V) (Spec.key t) (first :: m) first
  = Spec.report df t (Spec.classify V (first :: m)).
Proof.
  intros Hwf Hm. unfold classify, Spec.classify, same_vendor_row.
  destruct (contains "Vendor_Name" (columns df)) eqn:Hc.
  - by destruct (List.find _ _).
  - replace (List.find (is_same_vendor (vendor_norm V)) (first :: m))
      with (@None row); [done|].
    symmetry. apply find_none_iff. intros r Hr.
    eapply vendor_outside; eauto.
Qed.

Lemma check_by_email_spec d df V :
  well_formed df →
  check_by_email df (email_id_norm d) (vendor_norm V) =
  match Spec.email_matches d (rows df) with
  | [] => None
  | m => Some (Spec.report df Spec.ByEmail (Spec.classify V m))
  end.
Proof.
  intros Hwf. unfold check_by_email, Spec.email_matches, email_id_norm, Spec.email_of.
  set (ev := dict_get d "Email_ID" (VStr "")).
  rewrite field_norm_field.
  destruct (norm_field ev) as [e|] eqn:He; [|done].
  rewrite (norm_field_truthy _ _ He). simpl.
  rewrite valid_emails_isin.
  destruct (isin e sentinels4) eqn:Hs.
  - simpl. rewrite andb_false_r. by destruct (contains _ _).
  - pose proof (proj1 (isin_false _ _) Hs) as Hs'.
    destruct (contains "Email_ID" (columns df)) eqn:Hc.
    + destruct (List.filter (email_is e) (rows df)) as [|first m] eqn:Hf.
      * by destruct (_ && _).
      * rewrite (filter_cons_existsb _ _ _ _ Hf).
        assert (List.filter (λ x, negb (isin x sentinels4))
                  (email_norm_of <$> rows df) ≠ []) as Hne.
        { intros E. pose proof (valid_emails_isin e (rows df)) as H.
          rewrite E, (filter_cons_existsb _ _ _ _ Hf), Hs in H. simpl in H.
          unfold isin in H. by apply bool_decide_eq_true, elem_of_nil in H. }
        rewrite bool_decide_eq_false_2 by done. simpl. f_equal.
        apply (classify_report df V Spec.ByEmail); [done|].
        intros r Hr. rewrite <- Hf in Hr. by apply elem_of_bool_filter in Hr as [? _].
    + rewrite filter_none; [done|].
      intros r Hr. unfold email_is. rewrite (email_outside df Hwf r Hr Hc).
      apply bool_decide_eq_false. intros <-. apply Hs', nan_sentinel4.
Qed.

Lemma sentinel4_not_2 x :
  x ∈ sentinels4 → x ∉ sentinels2 → x = "nan" ∨ x = "none".
Proof.
  unfold sentinels4, sentinels2. rewrite !elem_of_cons, !elem_of_nil. naive_solver.
Qed.

Lemma re_sub_sentinel x :
  x ∈ sentinels4 → x ∉ sentinels2 → PyStr.re_sub_separators x ∈ sentinels4.
Proof.
  intros H4 H2.
  assert (PyStr.re_sub_separators x = x) as ->; [|done].
  by destruct (sentinel4_not_2 x H4 H2) as [-> | ->].
Qed.

Lemma contact_number_norm_cases d :
  match norm_field (Spec.phone_of d) with
  | Some x => contact_number_norm d = Some (PyStr.re_sub_separators x)
  | None => contact_number_norm d = None
  end.
Proof.
  unfold contact_number_norm, strip_contact, Spec.phone_of.
  destruct (norm_field _) as [x|] eqn:E; [|done].
  by rewrite (norm_field_truthy _ _ E).
Qed.

Lemma phone_absent_spec d :
  Spec.phone_absent (Spec.phone_of d) = negb (some_truthy (contact_number_norm d)).
Proof.
  pose proof (contact_number_norm_cases d) as H. unfold Spec.phone_absent.
  set (v := Spec.phone_of d) in *. unfold norm_field in H.
  destruct (truthy v); simpl in *.
  - destruct (isin (norm v) sentinels2); simpl in *; rewrite H; simpl; [done|].
    by rewrite negb_involutive.
  - by rewrite H.
Qed.

Lemma phone_Some d p :
  Spec.phone (Spec.phone_of d) = Some p →
  contact_number_norm d = Some p ∧ p ∉ sentinels4.
Proof.
  unfold Spec.phone. pose proof (contact_number_norm_cases d) as H.
  destruct (Spec.field _) as [x|] eqn:E; [|done].
  apply field_Some in E as [E _]. rewrite E in H.
  destruct (isin _ sentinels4) eqn:Hp; [done|]. intros [= <-].
  split; [done|]. by apply isin_false.
Qed.

Lemma phone_None d p :
  Spec.phone (Spec.phone_of d) = None → contact_number_norm d = Some p →
  p ∈ sentinels4.
Proof.
  unfold Spec.phone. pose proof (contact_number_norm_cases d) as H.
  destruct (norm_field (Spec.phone_of d)) as [x|] eqn:En; [|congruence].
  rewrite H. intros Hs [= <-].
  destruct (Spec.field _) as [y|] eqn:E.
  - apply field_Some in E as [E _]. rewrite En in E. injection E as <-.
    destruct (isin _ sentinels4) eqn:Hp; [|done]. by apply isin_true.
  - apply field_None in E as [E | (y & E & Hy)]; [congruence|].
    rewrite En in E. injection E as <-.
    apply re_sub_sentinel; [done|]. by apply norm_field_Some in En as (_ & _ & ?).
Qed.

Lemma candidate_name_norm_field d :
  candidate_name_norm d = norm_field (Spec.name_of d).
Proof. done. Qed.

(** The rows of a name and phone among the valid ones. *)
Lemma name_phone_filter n p (l : list row) :
  List.filter (λ r, name_is n r && contact_is p r)
    (List.filter valid_name_contact l)
  = if isin n sentinels4 || isin p sentinels4 then []
    else List.filter (λ r, name_is n r && contact_is p r) l.
Proof.
  rewrite filter_twice.
  destruct (isin n sentinels4) eqn:Hn; simpl.
  - apply filter_none. intros r _. apply isin_true in Hn.
    unfold valid_name_contact, name_is.
    destruct (bool_decide (name_norm_of r = n)) eqn:E;
      [|by rewrite andb_false_r].
    apply bool_decide_eq_true in E. rewrite E.
    apply isin_true in Hn. by rewrite Hn.
  - destruct (isin p sentinels4) eqn:Hp.
    + apply filter_none. intros r _.
      unfold valid_name_contact, contact_is.
      destruct (bool_decide (contact_norm_of r = p)) eqn:E;
        [|by rewrite !andb_false_r].
      apply bool_decide_eq_true in E. rewrite E, Hp. simpl.
      by rewrite andb_false_r.
    + apply filter_agree. intros r _.
      destruct (name_is n r && contact_is p r) eqn:E;
        [|by rewrite andb_false_r].
      rewrite (name_contact_is_valid n p r); [done|by apply isin_false..|done].
Qed.

Lemma name_filter n (l : list row) :
  List.filter (name_is n) (List.filter valid_name l)
  = if isin n sentinels4 then [] else List.filter (name_is n) l.
Proof.
  rewrite filter_twice. destruct (isin n sentinels4) eqn:Hn.
  - apply filter_none. intros r _. unfold valid_name, name_is.
    destruct (bool_decide (name_norm_of r = n)) eqn:E;
      [|by rewrite andb_false_r].
    apply bool_decide_eq_true in E. by rewrite E, Hn.
  - apply filter_agree. intros r _.
    destruct (name_is n r) eqn:E; [|by rewrite andb_false_r].
    rewrite (name_is_valid n r); [done|by apply isin_false|done].
Qed.

Lemma filter_of_nil_valid {A B} (valid : list A) (m : list A) (k : list A → B) (z : B)
    (q : A → bool) :
  m = List.filter q valid →
  match valid with
  | _ :: _ => match m with first :: rest => k m | [] => z end
  | [] => z
  end = match m with first :: rest => k m | [] => z end.
Proof. intros ->. by destruct valid. Qed.

Lemma check_by_name_phone_spec d df V :
  well_formed df →
  check_by_name_phone df (candidate_name_norm d) (contact_number_norm d)
    (vendor_norm V) =
  match Spec.name_phone_matches d (rows df) with
  | [] => None
  | m => Some (Spec.report df Spec.ByNamePhone (Spec.classify V m))
  end.
Proof.
  intros Hwf. unfold check_by_name_phone, Spec.name_phone_matches.
  rewrite candidate_name_norm_field, field_norm_field.
  destruct (norm_field (Spec.name_of d)) as [n|] eqn:En; [|done].
  rewrite (norm_field_truthy _ _ En). simpl.
  destruct (contact_number_norm d) as [p|] eqn:Ep.
  2:{ pose proof (contact_number_norm_cases d) as H.
      unfold Spec.phone. rewrite field_norm_field.
      destruct (norm_field (Spec.phone_of d)); [congruence|].
      by destruct (isin n sentinels4). }
  set (m := List.filter _ (List.filter valid_name_contact (rows df))).
  pose proof (name_phone_filter n p (rows df)) as Hm. fold m in Hm.
  assert (match List.filter valid_name_contact (rows df) with
          | _ :: _ =>
              match m with
              | first :: _ =>
                  Some (classify df (vendor_norm V) "name_and_phone" m first)
              | [] => None
              end
          | [] => None
          end
          = match m with
            | first :: _ =>
                Some (classify df (vendor_norm V) "name_and_phone" m first)
            | [] => None
            end) as ->.
  { subst m. by destruct (List.filter valid_name_contact (rows df)). }
  destruct (isin n sentinels4) eqn:Hn.
  { simpl in Hm. rewrite Hm. by destruct (_ && _). }
  destruct (Spec.phone (Spec.phone_of d)) as [p'|] eqn:Esp.
  - apply phone_Some in Esp as [E Hp']. rewrite Ep in E. injection E as <-.
    apply isin_false in Hp'. rewrite Hp' in Hm. simpl in Hm.
    assert (some_truthy (Some p) = true) as ->.
    { simpl. apply negb_true_iff, bool_decide_eq_false. intros ->.
      apply isin_false in Hp'. apply Hp', empty_sentinel4. }
    simpl.
    destruct (contains "Candidate_Name" (columns df)) eqn:Hc1; simpl.
    + destruct (contains "Contact_Number" (columns df)) eqn:Hc2; simpl.
      * rewrite Hm.
        destruct (List.filter (λ r, name_is n r && contact_is p r) (rows df))
          as [|first rest] eqn:Hf; [done|]. f_equal.
        apply (classify_report df V Spec.ByNamePhone); [done|].
        intros r Hr. rewrite <- Hf in Hr.
        by apply elem_of_bool_filter in Hr as [? _].
      * rewrite filter_none; [done|]. intros r Hr. unfold contact_is.
        rewrite (contact_outside df Hwf r Hr Hc2), andb_comm.
        rewrite bool_decide_eq_false_2; [done|]. intros <-.
        apply isin_false in Hp'. apply Hp', nan_sentinel4.
    + rewrite filter_none; [done|]. intros r Hr. unfold name_is.
      rewrite (name_outside df Hwf r Hr Hc1).
      rewrite bool_decide_eq_false_2; [done|]. intros <-.
      apply isin_false in Hn. apply Hn, nan_sentinel4.
  - apply (phone_None d p) in Esp; [|done]. apply isin_true in Esp.
    rewrite Esp, orb_true_r in Hm. rewrite Hm. by destruct (_ && _).
Qed.

Lemma find_in_filter {A} (p q : A → bool) (l : list A) :
  List.find p (List.filter (λ x, q x && p x) l)
  = head (List.filter (λ x, q x && p x) l).
Proof.
  rewrite find_filter_head, filter_twice. f_equal. apply filter_agree.
  intros x _. by destruct (q x), (p x).
Qed.

Lemma find_after_filter {A} (p q : A → bool) (l : list A) :
  List.find p (List.filter q l) = head (List.filter (λ x, q x && p x) l).
Proof. by rewrite find_filter_head, filter_twice. Qed.

Lemma check_by_name_vendor_spec d df V :
  well_formed df →
  check_by_name_vendor df (candidate_name_norm d) (contact_number_norm d)
    (vendor_norm V) =
  match Spec.name_vendor_matches d V (rows df) with
  | [] => None
  | m => Some (Spec.report df Spec.ByNameVendor (Spec.classify V m))
  end.
Proof.
  intros Hwf. unfold check_by_name_vendor, Spec.name_vendor_matches.
  rewrite candidate_name_norm_field, field_norm_field, phone_absent_spec.
  destruct (norm_field (Spec.name_of d)) as [n|] eqn:En; [|done].
  rewrite (norm_field_truthy _ _ En). simpl.
  set (v := vendor_norm V).
  set (m := List.filter (name_is n) (List.filter valid_name (rows df))).
  assert (match List.filter valid_name (rows df) with
          | _ :: _ =>
              match m with
              | _ :: _ =>
                  match same_vendor_row v m with
                  | Some same =>
                      Some (found df same "name_and_vendor_same_vendor")
                  | None => None
                  end
              | [] => None
              end
          | [] => None
          end
          = match same_vendor_row v m with
            | Some same => Some (found df same "name_and_vendor_same_vendor")
            | None => None
            end) as ->.
  { subst m. destruct (List.filter valid_name (rows df)); [done|].
    by destruct (List.filter (name_is n) _). }
  pose proof (name_filter n (rows df)) as Hm. fold m in Hm.
  destruct (isin n sentinels4) eqn:Hn.
  { rewrite Hm. simpl. by destruct (_ && _). }
  set (m3 := List.filter (λ r, name_is n r && is_same_vendor v r) (rows df)).
  assert (same_vendor_row v m = head m3) as Hfind.
  { unfold same_vendor_row. rewrite Hm. apply find_after_filter. }
  assert (match m3 with
          | [] => None
          | r :: l =>
              Some (Spec.report df Spec.ByNameVendor
                      (Spec.classify V (r :: l)))
          end
          = match head m3 with
            | Some same => Some (found df same "name_and_vendor_same_vendor")
            | None => None
            end) as Hspec.
  { subst m3.
    destruct (List.filter (λ r, name_is n r && is_same_vendor v r) (rows df))
      as [|r l] eqn:Hf; [done|].
    unfold Spec.classify. fold v.
    by rewrite <- Hf, (find_in_filter (is_same_vendor v) (name_is n)), Hf. }
  destruct (negb (some_truthy (contact_number_norm d))); simpl; [|done].
  destruct (bool_decide (v = "")); simpl; [done|].
  rewrite Hspec, Hfind.
  destruct (contains "Candidate_Name" (columns df)) eqn:Hc1; simpl.
  - destruct (contains "Vendor_Name" (columns df)) eqn:Hc2; simpl; [done|].
    subst m3. rewrite filter_none; [done|]. intros r Hr.
    by rewrite (vendor_outside df Hwf v r Hr Hc2), andb_false_r.
  - subst m3. rewrite filter_none; [done|]. intros r Hr. unfold name_is.
    rewrite (name_outside df Hwf r Hr Hc1).
    rewrite bool_decide_eq_false_2; [done|]. intros <-.
    apply isin_false in Hn. apply Hn, nan_sentinel4.
Qed.

(** The check function computes the specified resolution and
    classification on every frame read from a workbook. *)
Lemma check_frame_spec d df V :
  well_formed df → check_frame d df V = Spec.check d df V.
Proof.
  intros Hwf. unfold check_frame, Spec.check, Spec.resolve.
  rewrite check_by_email_spec, check_by_name_phone_spec,
    check_by_name_vendor_spec by done.
  destruct (Spec.email_matches d (rows df)); [|done].
  destruct (Spec.name_phone_matches d (rows df)); [|done].
  by destruct (Spec.name_vendor_matches d V (rows df)).
Qed.

Lemma resolve_no_rows d V : Spec.resolve d V [] = None.
Proof.
  unfold Spec.resolve, Spec.email_matches, Spec.name_phone_matches,
    Spec.name_vendor_matches.
  destruct (Spec.field (Spec.email_of d)); simpl;
    destruct (Spec.field (Spec.name_of d)); simpl;
    destruct (Spec.phone (Spec.phone_of d)); simpl; try done;
    by destruct (Spec.phone_absent _ && _).
Qed.

Lemma check_frame_empty d df V :
  df_empty df = true → check_frame d df V = absent.
Proof.
  unfold df_empty. intros [H|H]%orb_true_iff; apply bool_decide_eq_true in H;
    unfold check_frame, check_by_email, check_by_name_phone, check_by_name_vendor;
    rewrite H; simpl.
  - destruct (email_id_norm d); simpl; rewrite ?andb_false_r;
      destruct (candidate_name_norm d); simpl;
      destruct (contact_number_norm d); simpl; rewrite ?andb_false_r; done.
  - destruct (email_id_norm d); simpl;
      destruct (candidate_name_norm d); simpl;
      destruct (contact_number_norm d); simpl;
      repeat match goal with |- context [if ?b then _ else _] => destruct b end;
      done.
Qed.

Lemma check_spec d folder V :
  check_candidate_status_in_tracker d folder V
  = Spec.check d (table_of folder) V.
Proof.
  unfold check_candidate_status_in_tracker, table_of.
  destruct folder as [| err | df]; simpl.
  - unfold Spec.check. by rewrite resolve_no_rows.
  - unfold Spec.check. by rewrite resolve_no_rows.
  - destruct (df_empty (sheet_cells df)) eqn:E.
    + rewrite <- check_frame_spec by apply sheet_cells_well_formed.
      by rewrite check_frame_empty.
    + apply check_frame_spec, sheet_cells_well_formed.
Qed.

Lemma resolve_Some_cons d V table t m :
  Spec.resolve d V table = Some (t, m) → ∃ first rest, m = first :: rest.
Proof.
  unfold Spec.resolve.
  destruct (Spec.email_matches d table) as [|r1 l1]; [|intros [= <- <-]; eauto].
  destruct (Spec.name_phone_matches d table) as [|r2 l2];
    [|intros [= <- <-]; eauto].
  destruct (Spec.name_vendor_matches d V table) as [|r3 l3];
    [done|intros [= <- <-]; eauto].
Qed.

Lemma resolve_None d V table :
  Spec.resolve d V table = None ↔
  Spec.email_matches d table = [] ∧ Spec.name_phone_matches d table = []
  ∧ Spec.name_vendor_matches d V table = [].
Proof.
  unfold Spec.resolve.
  destruct (Spec.email_matches d table); [|naive_solver].
  destruct (Spec.name_phone_matches d table); [|naive_solver].
  destruct (Spec.name_vendor_matches d V table); naive_solver.
Qed.

Lemma resolve_tier d V table t m :
  Spec.resolve d V table = Some (t, m) →
  match t with
  | Spec.ByEmail => m = Spec.email_matches d table
  | Spec.ByNamePhone =>
      Spec.email_matches d table = [] ∧ m = Spec.name_phone_matches d table
  | Spec.ByNameVendor =>
      Spec.email_matches d table = [] ∧ Spec.name_phone_matches d table = []
      ∧ m = Spec.name_vendor_matches d V table
  end.
Proof.
  unfold Spec.resolve.
  destruct (Spec.email_matches d table) as [|r1 l1]; [|by intros [= <- <-]].
  destruct (Spec.name_phone_matches d table) as [|r2 l2];
    [|by intros [= <- <-]].
  destruct (Spec.name_vendor_matches d V table) as [|r3 l3];
    [done|by intros [= <- <-]].
Qed.

Lemma classify_cons V first rest :
  Spec.classify V (first :: rest) =
  match List.find (is_same_vendor (vendor_norm V)) (first :: rest) with
  | Some r => Spec.SameVendorDuplicate r
  | None => Spec.DifferentVendorDuplicate first
  end.
Proof. done. Qed.

Lemma endswith_same t :
  PyStr.endswith (Spec.key t +:+ "_same_vendor") "_same_vendor" = true
  ∧ PyStr.endswith (Spec.key t +:+ "_same_vendor") "_different_vendor" = false.
Proof. by destruct t. Qed.

Lemma endswith_different t :
  PyStr.endswith (Spec.key t +:+ "_different_vendor") "_same_vendor" = false
  ∧ PyStr.endswith (Spec.key t +:+ "_different_vendor") "_different_vendor" = true.
Proof. by destruct t. Qed.

(** What the check function answers, by the resolution of the candidate. *)
Lemma check_answer d folder V :
  let df := table_of folder in
  let chk := check_candidate_status_in_tracker d folder V in
  match Spec.resolve d V (rows df) with
  | None => chk = absent
  | Some (t, m) =>
      match List.find (is_same_vendor (vendor_norm V)) m with
      | Some r => chk = found df r (Spec.key t +:+ "_same_vendor")
      | None =>
          ∃ first rest, m = first :: rest
            ∧ chk = found df first (Spec.key t +:+ "_different_vendor")
      end
  end.
Proof.
  intros df chk. subst chk. rewrite check_spec. fold df. unfold Spec.check.
  destruct (Spec.resolve d V (rows df)) as [[t m]|] eqn:E; [|done].
  destruct (resolve_Some_cons _ _ _ _ _ E) as (first & rest & ->).
  rewrite classify_cons.
  destruct (List.find _ _); simpl; [done|]. by exists first, rest.
Qed.

(** ** C5 *)

(** C5. Identity resolution tries the tiers in order and stops at the
    first with a match: the rows of the candidate's normalised email when
    it has one that is no sentinel; else the rows of its name and phone,
    both valid on both sides; else, for a candidate without a phone, the
    rows of its name stored by the submitting, non-empty vendor. A
    candidate without email and phone whose name is only stored by other
    vendors resolves as unique. *)
Theorem tiers_in_priority_order (d : pydict) (folder : store) (V : string) :
  let table := rows (table_of folder) in
  let chk := check_candidate_status_in_tracker d folder V in
  (Spec.email_matches d table ≠ [] →
     c_exists chk = true ∧ PyStr.startswith (c_reason chk) "email_" = true)
  ∧ (Spec.email_matches d table = [] → Spec.name_phone_matches d table ≠ [] →
     c_exists chk = true
     ∧ PyStr.startswith (c_reason chk) "name_and_phone_" = true)
  ∧ (Spec.email_matches d table = [] → Spec.name_phone_matches d table = [] →
     Spec.name_vendor_matches d V table ≠ [] →
     c_exists chk = true ∧ c_reason chk = "name_and_vendor_same_vendor")
  ∧ (Spec.email_matches d table = [] → Spec.name_phone_matches d table = [] →
     Spec.name_vendor_matches d V table = [] → chk = absent)
  ∧ (∀ r, r ∈ Spec.email_matches d table →
     Spec.field (Spec.email_of d) = Some (email_norm_of r)
     ∧ isin (email_norm_of r) sentinels4 = false)
  ∧ (∀ r, r ∈ Spec.name_phone_matches d table →
     valid_name_contact r = true
     ∧ Spec.field (Spec.name_of d) = Some (name_norm_of r)
     ∧ Spec.phone (Spec.phone_of d) = Some (contact_norm_of r))
  ∧ (∀ r, r ∈ Spec.name_vendor_matches d V table →
     Spec.phone_absent (Spec.phone_of d) = true
     ∧ Spec.field (Spec.name_of d) = Some (name_norm_of r)
     ∧ vendor_norm V ≠ "" ∧ existing_vendor r = vendor_norm V)
  ∧ (Spec.field (Spec.email_of d) = None →
     Spec.phone_absent (Spec.phone_of d) = true →
     (∀ r, r ∈ table → is_same_vendor (vendor_norm V) r = false) →
     chk = absent).
Proof.
  intros table chk.
  pose proof (check_answer d folder V) as H. cbv zeta in H.
  fold table chk in H.
  assert (∀ t m, Spec.resolve d V table = Some (t, m) →
            c_exists chk = true
            ∧ (c_reason chk = Spec.key t +:+ "_same_vendor"
               ∨ c_reason chk = Spec.key t +:+ "_different_vendor")) as Hres.
  { intros t m E. rewrite E in H. destruct (List.find _ m).
    - rewrite H. auto.
    - destruct H as (first & rest & _ & ->). auto. }
  assert (Spec.email_matches d table = [] → Spec.name_phone_matches d table = [] →
          Spec.name_vendor_matches d V table = [] → chk = absent) as Hnone.
  { intros E1 E2 E3.
    assert (Spec.resolve d V table = None) as E by by apply resolve_None.
    by rewrite E in H. }
  split_and!.
  - intros Hne. unfold Spec.resolve in Hres.
    destruct (Spec.email_matches d table) as [|r l] eqn:E; [done|].
    destruct (Hres _ _ eq_refl) as [? [-> | ->]]; by split.
  - intros E1 Hne. unfold Spec.resolve in Hres. rewrite E1 in Hres.
    destruct (Spec.name_phone_matches d table) as [|r l] eqn:E; [done|].
    destruct (Hres _ _ eq_refl) as [? [-> | ->]]; by split.
  - intros E1 E2 Hne.
    destruct (Spec.name_vendor_matches d V table) as [|r l] eqn:E; [done|].
    assert (Spec.resolve d V table = Some (Spec.ByNameVendor, r :: l)) as Er.
    { unfold Spec.resolve. by rewrite E1, E2, E. }
    rewrite Er in H.
    assert (List.find (is_same_vendor (vendor_norm V)) (r :: l) = Some r) as Hf.
    { unfold Spec.name_vendor_matches in E.
      destruct (Spec.field _) as [n|]; [|done]. destruct (_ && _); [|done].
      rewrite <- E, find_in_filter, E. done. }
    rewrite Hf in H. by rewrite H.
  - done.
  - intros r Hr. unfold Spec.email_matches in Hr.
    destruct (Spec.field (Spec.email_of d)) as [e|] eqn:Ee;
      [|by apply elem_of_nil in Hr].
    apply elem_of_bool_filter in Hr as [_ Hr]. unfold email_is in Hr.
    apply bool_decide_eq_true in Hr as <-.
    split; [done|]. apply isin_false. by apply field_Some in Ee as [_ He].
  - intros r Hr. unfold Spec.name_phone_matches in Hr.
    destruct (Spec.field (Spec.name_of d)) as [n|] eqn:En;
      [|by apply elem_of_nil in Hr].
    destruct (Spec.phone (Spec.phone_of d)) as [p|] eqn:Ep;
      [|by apply elem_of_nil in Hr].
    apply elem_of_bool_filter in Hr as [_ Hr].
    apply field_Some in En as [_ Hn]. apply phone_Some in Ep as [_ Hp].
    split; [by apply (name_contact_is_valid n p)|].
    unfold name_is, contact_is in Hr.
    apply andb_true_iff in Hr as [<-%bool_decide_eq_true <-%bool_decide_eq_true].
    done.
  - intros r Hr. unfold Spec.name_vendor_matches in Hr.
    destruct (Spec.field (Spec.name_of d)) as [n|] eqn:En;
      [|by apply elem_of_nil in Hr].
    destruct (Spec.phone_absent _) eqn:Ha; simpl in Hr;
      [|by apply elem_of_nil in Hr].
    destruct (bool_decide (vendor_norm V = "")) eqn:Hv; simpl in Hr;
      [by apply elem_of_nil in Hr|].
    apply elem_of_bool_filter in Hr as [_ Hr]. unfold name_is in Hr.
    apply andb_true_iff in Hr as [<-%bool_decide_eq_true Hr].
    unfold is_same_vendor in Hr.
    apply andb_true_iff in Hr as [_ Hr%bool_decide_eq_true].
    apply bool_decide_eq_false in Hv. done.
  - intros He Ha Hv. apply Hnone.
    + unfold Spec.email_matches. by rewrite He.
    + unfold Spec.name_phone_matches, Spec.phone.
      destruct (Spec.field (Spec.name_of d)); [|done].
      destruct (Spec.field (Spec.phone_of d)) as [x|] eqn:Ex; [|done].
      destruct (isin _ sentinels4) eqn:Hs; [done|].
      exfalso. unfold Spec.phone_absent in Ha.
      apply field_Some in Ex as [Ex Hx].
      apply norm_field_Some in Ex as (-> & Ht & H2).
      rewrite Ht in Ha. simpl in Ha. apply isin_false in H2. rewrite H2 in Ha.
      simpl in Ha. apply bool_decide_eq_true in Ha. rewrite Ha in Hs.
      apply isin_false in Hs. apply Hs, empty_sentinel4.
    + unfold Spec.name_vendor_matches.
      destruct (Spec.field (Spec.name_of d)); [|done].
      destruct (_ && _); [|done]. apply filter_none.
      intros r Hr. by rewrite (Hv r Hr), andb_false_r.
Qed.

(** ** C6 *)

(** C6. When the resolver finds matches and one of them is of the
    submitting vendor (normalised, not empty), the check answers with the
    first such row, its status and remark, under a reason that ends in
    "_same_vendor", whatever other vendors the matches hold; a reason that
    ends in "_different_vendor" is only given when no matched row is of
    the submitting vendor. *)
Theorem same_vendor_wins (d : pydict) (folder : store) (V : string)
    (t : Spec.tier) (m : list row) :
  Spec.resolve d V (rows (table_of folder)) = Some (t, m) →
  let df := table_of folder in
  let chk := check_candidate_status_in_tracker d folder V in
  ((∃ r, r ∈ m ∧ is_same_vendor (vendor_norm V) r = true) →
     ∃ same, List.find (is_same_vendor (vendor_norm V)) m = Some same
       ∧ same ∈ m ∧ is_same_vendor (vendor_norm V) same = true
       ∧ chk = mkCheck true
                 (Some (row_get df same "Resume_Screening_Status" (VStr "Unknown")))
                 (Spec.key t +:+ "_same_vendor")
                 (row_get df same "Profile_Remark" (VStr ""))
       ∧ PyStr.endswith (c_reason chk) "_same_vendor" = true)
  ∧ (PyStr.endswith (c_reason chk) "_different_vendor" = true →
     ∀ r, r ∈ m → is_same_vendor (vendor_norm V) r = false)
  ∧ ((∀ r, r ∈ m → is_same_vendor (vendor_norm V) r = false) →
     c_exists chk = true ∧ c_reason chk = Spec.key t +:+ "_different_vendor"
     ∧ c_status chk
       = (λ first, row_get df first "Resume_Screening_Status" (VStr "Unknown"))
           <$> head m).
Proof.
  intros E df chk. pose proof (check_answer d folder V) as H. cbv zeta in H.
  fold df chk in H. fold df in E. rewrite E in H.
  destruct (List.find (is_same_vendor (vendor_norm V)) m) as [same|] eqn:Hf.
  - pose proof (find_some_elem _ _ _ Hf) as [Hin Hsame]. split_and!.
    + intros _. exists same. split_and!; try done.
      rewrite H. apply endswith_same.
    + rewrite H. simpl. by rewrite (proj2 (endswith_same t)).
    + intros Hno. by rewrite (Hno same Hin) in Hsame.
  - pose proof (proj1 (find_none_iff _ _) Hf) as Hno.
    destruct H as (first & rest & -> & H). split_and!.
    + intros (r & Hr & Hs). by rewrite (Hno r Hr) in Hs.
    + done.
    + intros _. by rewrite H.
Qed.

Lemma resolve_by_email d V table :
  List.length (Spec.email_matches d table) ≠ 0 →
  Spec.resolve d V table = Some (Spec.ByEmail, Spec.email_matches d table).
Proof.
  unfold Spec.resolve. by destruct (Spec.email_matches d table).
Qed.

Lemma hd_elem_of (m : list row) : List.length m ≠ 0 → List.hd ∅ m ∈ m.
Proof. destruct m; [done|]. intros _. by left. Qed.

(** The scenario's second submission: the same email from the same
    vendor. *)
Lemma same_vendor_wins_witness :
  c_reason (check_candidate_status_in_tracker Scenario.jane
              (u_store Scenario.first) "Acme") = "email_same_vendor".
Proof.
  set (folder := u_store Scenario.first).
  assert (List.length (Spec.email_matches Scenario.jane (rows (table_of folder))) ≠ 0)
    as Hlen by (vm_compute; discriminate).
  destruct (same_vendor_wins _ _ "Acme" _ _ (resolve_by_email _ "Acme" _ Hlen))
    as [H _].
  destruct H as (same & _ & _ & _ & Hchk & _).
  - exists (List.hd ∅ (Spec.email_matches Scenario.jane (rows (table_of folder)))).
    split; [by apply hd_elem_of | vm_compute; reflexivity].
  - rewrite Hchk. reflexivity.
Defined.

(** ** Rows under the frame operations *)

Lemma lookup_select_row (r : row) (cols : list string) c :
  filter (λ kv : string * value, kv.1 ∈ cols) r !! c
  = if contains c cols then r !! c else None.
Proof.
  apply option_eq. intros v. rewrite map_lookup_filter_Some. simpl.
  destruct (contains c cols) eqn:E.
  - apply contains_true in E. naive_solver.
  - apply contains_false in E. naive_solver.
Qed.

Lemma lookup_sheet_row (r : row) (cols : list string) c :
  filter (λ kv : string * value, kv.1 ∈ cols ∧ kv.2 ≠ VStr "") r !! c
  = if contains c cols
    then match r !! c with
         | Some v => if bool_decide (v = VStr "") then None else Some v
         | None => None
         end
    else None.
Proof.
  apply option_eq. intros v. rewrite map_lookup_filter_Some. simpl.
  destruct (contains c cols) eqn:E.
  - apply contains_true in E. destruct (r !! c) as [w|]; [|naive_solver].
    case_bool_decide; naive_solver.
  - apply contains_false in E. naive_solver.
Qed.

Lemma cell_sheet_row (r : row) (cols : list string) c :
  cell (filter (λ kv : string * value, kv.1 ∈ cols ∧ kv.2 ≠ VStr "") r) c
  = if contains c cols then stored (cell r c) else VNaN.
Proof.
  unfold cell, stored. rewrite lookup_sheet_row.
  destruct (contains c cols); [|done].
  destruct (r !! c) as [v|]; simpl; [|done]. by case_bool_decide.
Qed.

Lemma row_ext_refl cols (r : row) :
  (∀ c, c ∉ cols → r !! c = None) → row_ext cols r r.
Proof. intros H c. split; [done|]. intros Hc. left. by apply H. Qed.

Lemma extends_refl df : well_formed df → extends df df.
Proof.
  intros Hwf. split; [done|]. apply Forall2_same_length_lookup_2; [done|].
  intros i r r' H1 H2. assert (r' = r) as -> by congruence.
  apply row_ext_refl. intros c Hc. apply Hwf; [|done].
  by eapply list_elem_of_lookup_2.
Qed.

Lemma row_ext_trans cols cols' (r1 r2 r3 : row) :
  (∀ c, c ∈ cols → c ∈ cols') →
  row_ext cols r1 r2 → row_ext cols' r2 r3 → row_ext cols r1 r3.
Proof.
  intros Hsub H12 H23 c. destruct (H12 c) as [Ha Hb], (H23 c) as [Hc Hd].
  split.
  - intros Hin. rewrite Hc by auto. auto.
  - intros Hnin. destruct (decide (c ∈ cols')) as [Hin|Hin].
    + rewrite Hc by done. auto.
    + auto.
Qed.

Lemma extends_trans df1 df2 df3 :
  extends df1 df2 → extends df2 df3 → extends df1 df3.
Proof.
  intros [Hc12 Hr12] [Hc23 Hr23]. split; [auto|].
  revert Hr23. generalize (rows df3). induction Hr12 as [|r1 r2 l1 l2 H12 _ IH];
    intros l3 Hr23; inversion Hr23; subst; constructor.
  - by eapply row_ext_trans.
  - by apply IH.
Qed.

Lemma extends_length df df' :
  extends df df' → List.length (rows df') = List.length (rows df).
Proof. intros [_ H]. symmetry. by eapply Forall2_length. Qed.

(** Well-formedness under the operations. *)

Lemma set_column_well_formed df c f :
  well_formed df → well_formed (set_column df c f).
Proof.
  intros Hwf r c' Hr Hc'. simpl in *.
  apply list_elem_of_fmap in Hr as (r0 & -> & Hr0).
  assert (c' ≠ c ∧ c' ∉ columns df) as [Hne Hn].
  { destruct (contains c (columns df)) eqn:E.
    - apply contains_true in E. split; [|done]. by intros ->.
    - rewrite elem_of_app, list_elem_of_singleton in Hc'. naive_solver. }
  rewrite lookup_insert_ne by done. by apply Hwf.
Qed.

Lemma set_where_well_formed df mask c v :
  well_formed df → well_formed (set_where df mask c v).
Proof.
  intros Hwf r c' Hr Hc'. simpl in *.
  apply list_elem_of_fmap in Hr as (r0 & -> & Hr0).
  assert (c' ≠ c ∧ c' ∉ columns df) as [Hne Hn].
  { destruct (contains c (columns df)) eqn:E.
    - apply contains_true in E. split; [|done]. by intros ->.
    - rewrite elem_of_app, list_elem_of_singleton in Hc'. naive_solver. }
  destruct (mask r0); [rewrite lookup_insert_ne by done|]; by apply Hwf.
Qed.

Lemma drop_column_well_formed df c :
  well_formed df → well_formed (drop_column df c).
Proof.
  intros Hwf r c' Hr Hc'. simpl in *.
  apply list_elem_of_fmap in Hr as (r0 & -> & Hr0).
  destruct (decide (c' = c)) as [->|Hne]; [apply lookup_delete_eq|].
  rewrite lookup_delete_ne by done. apply Hwf; [done|].
  intros Hin. apply Hc', list_elem_of_In, filter_In. split.
  - by apply list_elem_of_In.
  - by apply negb_true_iff, bool_decide_eq_false.
Qed.

Lemma select_well_formed df cols : well_formed (select df cols).
Proof.
  intros r c Hr Hc. simpl in *.
  apply list_elem_of_fmap in Hr as (r0 & -> & Hr0).
  rewrite lookup_select_row. by apply contains_false in Hc as ->.
Qed.

(** ** Loading the tracker before a row is added *)

Lemma set_column_blank_extends df c :
  well_formed df → c ∉ columns df → extends df (set_column df c (λ _, VStr "")).
Proof.
  intros Hwf Hc. split; simpl.
  - apply contains_false in Hc as ->. intros c' ?. apply elem_of_app. by left.
  - apply Forall2_fmap_r, Forall2_same_length_lookup_2; [done|].
    intros i r r' H1 H2. assert (r' = r) as -> by congruence.
    intros c'. split.
    + intros Hin. rewrite lookup_insert_ne; [done|]. by intros ->.
    + intros Hn. destruct (decide (c = c')) as [->|Hne].
      * right. apply lookup_insert_eq.
      * left. rewrite lookup_insert_ne by done. apply Hwf; [|done].
        by eapply list_elem_of_lookup_2.
Qed.

Lemma Forall2_fmap_self {A B} (R : A → B → Prop) (g : A → B) (l : list A) :
  (∀ x, x ∈ l → R x (g x)) → Forall2 R l (g <$> l).
Proof.
  intros H. apply Forall2_fmap_r, Forall2_same_length_lookup_2; [done|].
  intros i x y H1 H2. assert (y = x) as -> by congruence.
  apply H. by eapply list_elem_of_lookup_2.
Qed.

Lemma Forall2_compose {A B C} (R : A → B → Prop) (S : B → C → Prop)
    (T : A → C → Prop) l1 l2 l3 :
  (∀ x y z, R x y → S y z → T x z) →
  Forall2 R l1 l2 → Forall2 S l2 l3 → Forall2 T l1 l3.
Proof.
  intros H H12. revert l3. induction H12; intros l3 H23; inversion H23; subst;
    constructor; eauto.
Qed.

(** Missing columns filled with blanks, as lines 314-316 and 496-498 do. *)
Lemma fill_blank_extends (cols : list string) df :
  well_formed df →
  let df' := foldl (λ df col,
                      if negb (contains col (columns df))
                      then set_column df col (λ _, VStr "") else df) df cols in
  extends df df' ∧ well_formed df' ∧ (∀ c, c ∈ cols → c ∈ columns df')
  ∧ (∀ c, c ∈ columns df' → c ∈ columns df ∨ c ∈ cols)
  ∧ Forall2 (λ r r', ∀ c, c ∉ cols → r' !! c = r !! c) (rows df) (rows df').
Proof.
  revert df. induction cols as [|col cols IH]; intros df Hwf; simpl.
  - split_and!; [by apply extends_refl|done| |auto|].
    + intros c Hc. inversion Hc.
    + by apply Forall2_same_length_lookup_2; [|intros; congruence].
  - set (df1 := if negb (contains col (columns df))
                then set_column df col (λ _, VStr "") else df).
    assert (extends df df1 ∧ well_formed df1 ∧ col ∈ columns df1
            ∧ (∀ c, c ∈ columns df1 → c ∈ columns df ∨ c = col)
            ∧ Forall2 (λ r r', ∀ c, c ≠ col → r' !! c = r !! c)
                (rows df) (rows df1))
      as (He & Hwf1 & Hcol & Hback & Hsame).
    { subst df1. destruct (contains col (columns df)) eqn:E; simpl.
      - split_and!; [by apply extends_refl|done|by apply contains_true|auto|].
        by apply Forall2_same_length_lookup_2; [|intros; congruence].
      - split_and!.
        + apply set_column_blank_extends; [done|by apply contains_false].
        + by apply set_column_well_formed.
        + simpl. rewrite E. apply elem_of_app. right. by left.
        + simpl. rewrite E. intros c [?|?%list_elem_of_singleton]%elem_of_app; auto.
        + apply Forall2_fmap_self. intros r _ c Hc.
          by rewrite lookup_insert_ne. }
    destruct (IH df1 Hwf1) as (He' & Hwf' & Hin & Hback' & Hsame').
    split_and!.
    + by eapply extends_trans.
    + done.
    + intros c [->|Hc]%elem_of_cons; [|by apply Hin]. by apply He'.
    + intros c Hc. destruct (Hback' c Hc) as [H|H]; [|by right; right].
      destruct (Hback c H) as [?| ->]; [by left|right; by left].
    + eapply Forall2_compose; [|exact Hsame|exact Hsame'].
      intros r1 r2 r3 H12 H23 c Hc. simpl in *.
      rewrite not_elem_of_cons in Hc. destruct Hc. rewrite H23, H12; done.
Qed.

Lemma rename_legacy_rows df :
  well_formed df →
  well_formed (rename_legacy df)
  ∧ (∀ c, c ∈ columns df → c ≠ "Date_Shortlisted" →
       c ∈ columns (rename_legacy df))
  ∧ (∀ c, c ∈ columns (rename_legacy df) →
       c ∈ columns df ∨ c = "Screening_Date")
  ∧ Forall2 (λ r r',
       (∀ c, c ≠ "Date_Shortlisted" → c ≠ "Screening_Date" → r' !! c = r !! c)
       ∧ (∀ c, c ∈ columns df → c ≠ "Date_Shortlisted" → r' !! c = r !! c))
      (rows df) (rows (rename_legacy df)).
Proof.
  intros Hwf. unfold rename_legacy.
  destruct (contains "Date_Shortlisted" (columns df)) eqn:Hds.
  2:{ split_and!; [done|auto|auto|].
      apply Forall2_same_length_lookup_2; [done|]. intros i r r' H1 H2.
      assert (r' = r) as -> by congruence. done. }
  set (df1 := if negb (contains "Screening_Date" (columns df))
              then set_column df "Screening_Date" (λ r, cell r "Date_Shortlisted")
              else df).
  assert (well_formed df1) as Hwf1.
  { subst df1. destruct (negb _); [by apply set_column_well_formed|done]. }
  assert (∀ c, c ∈ columns df → c ∈ columns df1) as Hin1.
  { subst df1. destruct (contains "Screening_Date" (columns df)) eqn:E; simpl;
      [done|]. rewrite E. intros c ?. apply elem_of_app. by left. }
  assert (∀ c, c ∈ columns df1 → c ∈ columns df ∨ c = "Screening_Date") as Hb1.
  { subst df1. destruct (contains "Screening_Date" (columns df)) eqn:E; simpl;
      [auto|]. rewrite E.
    intros c [?|?%list_elem_of_singleton]%elem_of_app; auto. }
  assert (Forall2 (λ r r',
            (∀ c, c ≠ "Screening_Date" → r' !! c = r !! c)
            ∧ (∀ c, c ∈ columns df → r' !! c = r !! c))
            (rows df) (rows df1)) as Hr1.
  { subst df1. destruct (contains "Screening_Date" (columns df)) eqn:E; simpl.
    - apply Forall2_same_length_lookup_2; [done|]. intros i r r' H1 H2.
      assert (r' = r) as -> by congruence. done.
    - apply Forall2_fmap_self. intros r _. split; intros c Hc.
      + by rewrite lookup_insert_ne.
      + rewrite lookup_insert_ne; [done|]. intros <-.
        by apply contains_false in E. }
  split_and!.
  - by apply drop_column_well_formed.
  - intros c Hc Hne. simpl. apply list_elem_of_In, filter_In. split.
    + by apply list_elem_of_In, Hin1.
    + by apply negb_true_iff, bool_decide_eq_false.
  - intros c Hc. simpl in Hc.
    apply list_elem_of_In, filter_In in Hc as [Hc%list_elem_of_In _]. auto.
  - simpl. apply Forall2_fmap_r.
    eapply Forall2_impl; [exact Hr1|]. intros r r' [Ha Hb]. split.
    + intros c H1 H2. rewrite lookup_delete_ne by done. auto.
    + intros c H1 H2. rewrite lookup_delete_ne by done. auto.
Qed.

Lemma retag_duplicates_rows df :
  well_formed df →
  well_formed (retag_duplicates df)
  ∧ columns (retag_duplicates df) = columns df
  ∧ Forall2 (λ r r',
       (∀ c, c ≠ "Resume_Screening_Status" → r' !! c = r !! c)
       ∧ (∀ c, c ∈ columns df → cell r' c = retagged df r c))
      (rows df) (rows (retag_duplicates df)).
Proof.
  intros Hwf. unfold retag_duplicates.
  destruct (contains "Profile_Remark" (columns df)) eqn:Hpr; simpl.
  2:{ split_and!; [done..|].
      apply Forall2_same_length_lookup_2; [done|]. intros i r r' H1 H2.
      assert (r' = r) as -> by congruence. split; [done|].
      intros c _. unfold retagged. by rewrite Hpr, andb_false_r. }
  destruct (contains "Resume_Screening_Status" (columns df)) eqn:Hrs; simpl.
  2:{ split_and!; [done..|].
      apply Forall2_same_length_lookup_2; [done|]. intros i r r' H1 H2.
      assert (r' = r) as -> by congruence. split; [done|].
      intros c Hc. unfold retagged. rewrite bool_decide_eq_false_2; [done|].
      intros ->. apply contains_false in Hrs. done. }
  split_and!.
  - by apply set_where_well_formed.
  - simpl. by rewrite Hrs.
  - simpl. apply Forall2_fmap_self. intros r _. split.
    + intros c Hc. destruct (bool_decide _); [|done]. by rewrite lookup_insert_ne.
    + intros c Hc. unfold retagged. rewrite Hpr, andb_true_r.
      destruct (decide (norm (cell r "Profile_Remark") = "duplicate profile"))
        as [Hm|Hm].
      * rewrite !(bool_decide_eq_true_2 _ Hm), andb_true_r. unfold cell.
        destruct (decide (c = "Resume_Screening_Status")) as [->|Hcc].
        -- by rewrite lookup_insert_eq.
        -- rewrite lookup_insert_ne by done. by rewrite bool_decide_eq_false_2.
      * by rewrite !(bool_decide_eq_false_2 _ Hm), andb_false_r.
Qed.

Lemma Forall2_both {A B} (R S : A → B → Prop) l k :
  Forall2 R l k → Forall2 S l k → Forall2 (λ x y, R x y ∧ S x y) l k.
Proof.
  intros H. induction H; intros H'; inversion H'; subst; constructor; auto.
Qed.

Lemma add_manual_columns_rows df :
  well_formed df →
  extends df (add_manual_columns df) ∧ well_formed (add_manual_columns df)
  ∧ (∀ c, c ∈ manual_columns → c ∈ columns (add_manual_columns df))
  ∧ (∀ c, c ∈ columns (add_manual_columns df) →
       c ∈ columns df ∨ c ∈ manual_columns)
  ∧ Forall2 (λ r r', ∀ c, c ∉ manual_columns → r' !! c = r !! c)
      (rows df) (rows (add_manual_columns df)).
Proof. apply (fill_blank_extends manual_columns). Qed.

(** Loading keeps every row, retags the duplicates and leaves the other
    cells of the old columns alone. *)
Lemma load_tracker_rows folder :
  let df0 := table_of folder in
  let df := load_tracker folder in
  well_formed df
  ∧ (∀ c, c ∈ columns df0 → c ≠ "Date_Shortlisted" → c ∈ columns df)
  ∧ (∀ c, c ∈ columns df → c ∈ columns df0 ∨ c ∈ touched)
  ∧ Forall2 (λ r r',
       (∀ c, c ∉ touched → r' !! c = r !! c)
       ∧ (∀ c, c ∈ columns df0 → c ≠ "Date_Shortlisted" →
            cell r' c = retagged df0 r c))
      (rows df0) (rows df).
Proof.
  intros df0 df. subst df0 df.
  destruct folder as [|err|sheet].
  1,2: split_and!; [by intros r c Hr; inversion Hr|done|auto|constructor].
  change (table_of (Sheet sheet)) with (sheet_cells sheet).
  change (load_tracker (Sheet sheet))
    with (add_manual_columns (retag_duplicates (rename_legacy (sheet_cells sheet)))).
  set (df0 := sheet_cells sheet).
  pose proof (sheet_cells_well_formed sheet) as Hwf0. fold df0 in Hwf0.
  destruct (rename_legacy_rows df0 Hwf0) as (Hwf1 & Hin1 & Hb1 & Hr1).
  set (df1 := rename_legacy df0) in *.
  destruct (retag_duplicates_rows df1 Hwf1) as (Hwf2 & Hc2 & Hr2).
  set (df2 := retag_duplicates df1) in *.
  destruct (add_manual_columns_rows df2 Hwf2)
    as ([Hin3 He3] & Hwf3 & _ & Hb3 & Hr3).
  set (df3 := add_manual_columns df2) in *.
  split_and!.
  - done.
  - intros c Hc Hne. apply Hin3. rewrite Hc2. by apply Hin1.
  - intros c Hc. unfold touched.
    destruct (Hb3 c Hc) as [H|H]; [|right; apply elem_of_app; by right].
    rewrite Hc2 in H. destruct (Hb1 c H) as [?| ->]; [by left|].
    right. apply elem_of_app. left. rewrite !elem_of_cons. auto.
  - assert (contains "Profile_Remark" (columns df1)
            = contains "Profile_Remark" (columns df0)) as Hpr.
    { apply eq_true_iff_eq. rewrite !contains_true. split.
      - intros H. by destruct (Hb1 _ H).
      - intros H. by apply Hin1. }
    pose proof (Forall2_both _ _ _ _ He3 Hr3) as H3.
    pose proof (Forall2_compose _ _
                  (λ r1 r3, ∃ r2,
                     ((∀ c, c ≠ "Resume_Screening_Status" → r2 !! c = r1 !! c)
                      ∧ (∀ c, c ∈ columns df1 → cell r2 c = retagged df1 r1 c))
                     ∧ row_ext (columns df2) r2 r3
                     ∧ (∀ c, c ∉ manual_columns → r3 !! c = r2 !! c))
                  _ _ _ (λ r1 r2 r3 H12 H23, ex_intro _ r2 (conj H12 H23))
                  Hr2 H3) as H23.
    eapply Forall2_compose; [|exact Hr1|exact H23].
    intros r r1 r3 [Ha1 Hb1'] (r2 & [Ha2 Hb2] & [He Hm]). split.
    + intros c Hc. unfold touched in Hc.
      rewrite elem_of_app, !elem_of_cons, elem_of_nil in Hc.
      assert (c ∉ manual_columns) as H1 by tauto.
      assert (c ≠ "Resume_Screening_Status") as H2 by tauto.
      assert (c ≠ "Date_Shortlisted") as H3' by tauto.
      assert (c ≠ "Screening_Date") as H4 by tauto.
      by rewrite Hm, Ha2, Ha1.
    + intros c Hc Hne. assert (c ∈ columns df1) as Hc1 by by apply Hin1.
      unfold cell at 1. rewrite (proj1 (He c)) by by rewrite Hc2.
      fold (cell r2 c). rewrite (Hb2 c Hc1). unfold retagged.
      rewrite Hpr. unfold cell. rewrite (Hb1' c Hc Hne).
      by rewrite (Ha1 "Profile_Remark").
Qed.

(** ** Python list operations *)

Lemma elem_of_list_remove_ne c x l : c ≠ x → c ∈ list_remove x l ↔ c ∈ l.
Proof.
  intros Hne. induction l as [|y l IH]; simpl; [done|].
  case_bool_decide as E.
  - subst y. rewrite elem_of_cons. naive_solver.
  - rewrite !elem_of_cons, IH. done.
Qed.

Lemma elem_of_list_remove c x l : c ∈ list_remove x l → c ∈ l.
Proof.
  induction l as [|y l IH]; simpl; [done|]. case_bool_decide.
  - intros ?. by right.
  - rewrite !elem_of_cons. naive_solver.
Qed.

Lemma elem_of_list_insert_at c i x l :
  c ∈ list_insert_at i x l ↔ c = x ∨ c ∈ l.
Proof.
  unfold list_insert_at. rewrite elem_of_app, elem_of_cons.
  assert (c ∈ l ↔ c ∈ take i l ∨ c ∈ drop i l) as ->.
  { by rewrite <- elem_of_app, take_drop. }
  naive_solver.
Qed.

Lemma elem_of_move c i x l :
  x ∈ l → c ∈ list_insert_at i x (list_remove x l) ↔ c ∈ l.
Proof.
  intros Hx. rewrite elem_of_list_insert_at.
  destruct (decide (c = x)) as [->|Hne]; [naive_solver|].
  rewrite elem_of_list_remove_ne by done. naive_solver.
Qed.

Lemma elem_of_first_columns_to_front c cols :
  c ∈ first_columns_to_front cols ↔ c ∈ cols.
Proof.
  unfold first_columns_to_front.
  generalize (imap (λ (i : nat) (col : string), (i, col)) first_columns).
  intros l. revert cols. induction l as [|[i x] l IH]; intros cols; simpl;
    [done|].
  rewrite IH. destruct (contains x cols) eqn:E; [|done].
  apply elem_of_move. by apply contains_true.
Qed.

Lemma elem_of_position_after_email c cols :
  c ∈ position_after_email cols ↔ c ∈ cols.
Proof.
  unfold position_after_email.
  destruct (contains "Email_ID" cols); simpl; [|done].
  destruct (contains "Position" cols) eqn:E; simpl; [|done].
  destruct (negb _); [|done]. apply elem_of_move. by apply contains_true.
Qed.

Lemma elem_of_remove_all c (xs cols : list string) :
  c ∈ cols →
  c ∈ xs ∨ c ∈ foldl (λ cols col,
                        if contains col cols then list_remove col cols else cols)
                     cols xs.
Proof.
  revert cols. induction xs as [|x xs IH]; intros cols Hc; simpl; [by right|].
  destruct (decide (c = x)) as [->|Hne]; [left; by left|].
  destruct (IH (if contains x cols then list_remove x cols else cols)) as [H|H].
  - destruct (contains x cols); [|done]. by apply elem_of_list_remove_ne.
  - left. by right.
  - by right.
Qed.

Lemma elem_of_remove_all_inv c (xs cols : list string) :
  c ∈ foldl (λ cols col,
               if contains col cols then list_remove col cols else cols)
            cols xs → c ∈ cols.
Proof.
  revert cols. induction xs as [|x xs IH]; intros cols; simpl; [done|].
  intros H%IH. destruct (contains x cols); [|done].
  by eapply elem_of_list_remove.
Qed.

Lemma elem_of_manual_columns_to_end c cols :
  c ∈ manual_columns_to_end cols ↔ c ∈ cols ∨ c ∈ manual_columns.
Proof.
  unfold manual_columns_to_end. rewrite elem_of_app. split.
  - intros [H%elem_of_remove_all_inv|H]; auto.
  - intros [H|H]; [|by right].
    destruct (elem_of_remove_all c manual_columns cols H); auto.
Qed.

Lemma elem_of_final_order c cols :
  c ∈ final_order cols ↔ c ∈ cols ∨ c ∈ manual_columns.
Proof.
  unfold final_order.
  by rewrite elem_of_manual_columns_to_end, elem_of_position_after_email,
    elem_of_first_columns_to_front.
Qed.

(** ** Python dictionaries *)

Lemma dict_lookup_set d k v k' :
  dict_lookup (dict_set d k v) k'
  = if bool_decide (k = k') then Some v else dict_lookup d k'.
Proof.
  induction d as [|[k0 v0] d IH]; simpl.
  - done.
  - destruct (decide (k0 = k)) as [->|Hne].
    + rewrite bool_decide_eq_true_2 by done. simpl. by case_bool_decide.
    + rewrite (bool_decide_eq_false_2 (k0 = k)) by done. simpl. rewrite IH.
      repeat case_bool_decide; congruence.
Qed.

Lemma dict_keys_lookup d k : k ∈ dict_keys d ↔ is_Some (dict_lookup d k).
Proof.
  unfold dict_keys. induction d as [|[k0 v0] d IH]; simpl.
  - rewrite elem_of_nil. split; [done|]. by intros [? ?].
  - rewrite elem_of_cons, IH. case_bool_decide; naive_solver.
Qed.

Lemma lookup_list_to_map_dict (d : pydict) k :
  (list_to_map d : gmap string value) !! k = dict_lookup d k.
Proof.
  induction d as [|[k0 v0] d IH]; simpl; [done|].
  case_bool_decide as E.
  - subst. apply lookup_insert_eq.
  - by rewrite lookup_insert_ne.
Qed.

Lemma dict_lookup_fold_set d (cols : list string) v k :
  dict_lookup (foldl (λ d col, dict_set d col v) d cols) k
  = if contains k cols then Some v else dict_lookup d k.
Proof.
  revert d. induction cols as [|col cols IH]; intros d; simpl; [done|].
  rewrite IH, dict_lookup_set. unfold contains.
  destruct (decide (col = k)) as [->|Hne].
  - rewrite (bool_decide_eq_true_2 (k ∈ k :: cols)) by by left.
    rewrite (bool_decide_eq_true_2 (k = k)) by done.
    by destruct (bool_decide (k ∈ cols)).
  - rewrite (bool_decide_eq_false_2 (col = k)) by done.
    destruct (decide (k ∈ cols)) as [Hin|Hin].
    + rewrite (bool_decide_eq_true_2 (k ∈ cols)) by done.
      by rewrite (bool_decide_eq_true_2 (k ∈ col :: cols)) by by right.
    + rewrite (bool_decide_eq_false_2 (k ∈ cols)) by done.
      rewrite (bool_decide_eq_false_2 (k ∈ col :: cols)); [done|].
      rewrite elem_of_cons. naive_solver.
Qed.

(** ** The new row *)

Lemma row_of_dict_frame_of_dict d : row_of_dict d (frame_of_dict d).
Proof.
  exists (list_to_map d). split; [done|]. intros c. simpl.
  rewrite lookup_list_to_map_dict. unfold dict_get.
  destruct (contains c (dict_keys d)) eqn:E.
  - apply contains_true, dict_keys_lookup in E as [v ->]. done.
  - apply contains_false in E. rewrite dict_keys_lookup in E.
    destruct (dict_lookup d c); [|done]. by destruct E.
Qed.

Lemma row_of_dict_set_column d F c :
  row_of_dict d F → row_of_dict d (set_column F c (λ _, dict_get d c (VStr ""))).
Proof.
  intros (r & Hr & H). exists (<[c := dict_get d c (VStr "")]> r).
  split; [simpl; by rewrite Hr|]. intros c'. simpl.
  destruct (decide (c = c')) as [->|Hne].
  - rewrite lookup_insert_eq.
    destruct (contains c' (columns F)) eqn:E; [by rewrite E|].
    unfold contains. rewrite bool_decide_eq_true_2; [done|].
    apply elem_of_app. right. by left.
  - rewrite lookup_insert_ne by done. rewrite H.
    destruct (contains c (columns F)); [done|].
    unfold contains. apply (f_equal (λ b : bool, if b then _ else _)).
    apply bool_decide_ext. rewrite elem_of_app, list_elem_of_singleton.
    naive_solver.
Qed.

Lemma row_of_dict_select d F cols :
  row_of_dict d F → (∀ c, c ∈ cols → c ∈ columns F) → row_of_dict d (select F cols).
Proof.
  intros (r & Hr & H) Hsub. eexists. split; [simpl; by rewrite Hr|].
  intros c. simpl. rewrite lookup_select_row, H.
  destruct (contains c cols) eqn:E; [|done].
  apply contains_true, Hsub, contains_true in E. by rewrite E.
Qed.

Lemma set_column_columns df c f c' :
  c' ∈ columns (set_column df c f) ↔ c' ∈ columns df ∨ c' = c.
Proof.
  simpl. destruct (contains c (columns df)) eqn:E.
  - apply contains_true in E. naive_solver.
  - rewrite elem_of_app, list_elem_of_singleton. done.
Qed.

Lemma row_of_dict_fill_missing d F cols :
  row_of_dict d F →
  row_of_dict d (fill_missing d F cols)
  ∧ (∀ c, c ∈ columns (fill_missing d F cols) ↔ c ∈ columns F ∨ c ∈ cols).
Proof.
  unfold fill_missing. revert F.
  induction cols as [|col cols IH]; intros F HF; simpl.
  - split; [done|]. intros c. rewrite elem_of_nil. naive_solver.
  - set (F1 := if negb (contains col (columns F))
               then set_column F col (λ _, dict_get d col (VStr "")) else F).
    assert (row_of_dict d F1 ∧ ∀ c, c ∈ columns F1 ↔ c ∈ columns F ∨ c = col)
      as [HF1 Hc1].
    { subst F1. destruct (contains col (columns F)) eqn:E; simpl.
      - split; [done|]. apply contains_true in E. naive_solver.
      - split; [by apply row_of_dict_set_column|].
        intros c. rewrite E, elem_of_app, list_elem_of_singleton. done. }
    destruct (IH F1 HF1) as [He Hc]. split; [done|].
    intros c. rewrite Hc, Hc1, elem_of_cons. naive_solver.
Qed.

Lemma row_of_dict_set_all d F cols :
  row_of_dict d F →
  let F' := foldl (λ new_row col,
                     set_column new_row col (λ _, dict_get d col (VStr "")))
                  F cols in
  row_of_dict d F' ∧ (∀ c, c ∈ columns F' ↔ c ∈ columns F ∨ c ∈ cols).
Proof.
  revert F. induction cols as [|col cols IH]; intros F HF; simpl.
  - split; [done|]. intros c. rewrite elem_of_nil. naive_solver.
  - destruct (IH _ (row_of_dict_set_column d F col HF)) as [He Hc].
    split; [done|]. intros c.
    rewrite Hc, set_column_columns, elem_of_cons. naive_solver.
Qed.

Lemma elem_of_bool_filter_not (P : string → bool) (l : list string) c :
  c ∈ List.filter P l ↔ c ∈ l ∧ P c = true.
Proof. apply elem_of_bool_filter. Qed.

(** Lines 510-519 *)
Lemma align_to_details_row d :
  (∀ c, c ∈ first_columns → c ∈ dict_keys d) →
  let F := align_to_details d (frame_of_dict d) in
  row_of_dict d F ∧ (∀ c, c ∈ columns F ↔ c ∈ dict_keys d).
Proof.
  intros Hfirst. unfold align_to_details.
  set (all_cols := first_columns ++ List.filter _ (dict_keys d)).
  assert (∀ c, c ∈ all_cols ↔ c ∈ dict_keys d) as Hall.
  { intros c. subst all_cols. rewrite elem_of_app.
    rewrite (elem_of_bool_filter (λ col, negb (contains col first_columns))).
    rewrite negb_true_iff, contains_false. split; [naive_solver|].
    intros H. destruct (decide (c ∈ first_columns)); auto. }
  set (F0 := select (frame_of_dict d) _).
  assert (row_of_dict d F0 ∧ ∀ c, c ∈ columns F0 ↔ c ∈ all_cols) as [H0 Hc0].
  { subst F0. split.
    - apply row_of_dict_select; [apply row_of_dict_frame_of_dict|].
      intros c [_ H]%elem_of_bool_filter. by apply contains_true in H.
    - intros c. cbn [select columns].
      rewrite (elem_of_bool_filter (λ col, contains col (dict_keys d))).
      rewrite contains_true, Hall. naive_solver. }
  clearbody F0.
  assert (∀ l F, row_of_dict d F → (∀ c, c ∈ columns F ↔ c ∈ all_cols) →
            let F' := foldl (λ new_row col,
                         let new_row :=
                           if negb (contains col (columns new_row))
                           then set_column new_row col
                                  (λ _, dict_get d col (VStr ""))
                           else new_row in
                         select new_row all_cols) F l in
            row_of_dict d F' ∧ (∀ c, c ∈ columns F' ↔ c ∈ all_cols)) as Hloop.
  { induction l as [|col l IH]; intros F HF Hc; simpl; [done|].
    apply IH.
    - apply row_of_dict_select.
      + destruct (negb _); [by apply row_of_dict_set_column|done].
      + intros c Hin. destruct (negb _); [|by apply Hc].
        apply set_column_columns. left. by apply Hc.
    - done. }
  destruct (Hloop all_cols F0 H0 Hc0) as [He Hc]. split; [done|].
  intros c. by rewrite Hc, Hall.
Qed.

Lemma extends_set_blank df0 df col :
  extends df0 df → col ∉ columns df0 →
  extends df0 (set_column df col (λ _, VStr "")).
Proof.
  intros [Hc Hr] Hcol. split.
  - intros c Hin. apply set_column_columns. left. by apply Hc.
  - cbn [set_column rows]. apply Forall2_fmap_r.
    eapply Forall2_impl; [exact Hr|]. intros r r' H c.
    destruct (H c) as [Ha Hb]. split.
    + intros Hin. rewrite lookup_insert_ne; [by apply Ha|]. by intros ->.
    + intros Hn. destruct (decide (col = c)) as [->|Hne].
      * right. apply lookup_insert_eq.
      * rewrite lookup_insert_ne by done. by apply Hb.
Qed.

Lemma set_all_blank_extends df0 (cols : list string) df :
  extends df0 df → well_formed df → (∀ c, c ∈ cols → c ∉ columns df0) →
  let df' := foldl (λ df col, set_column df col (λ _, VStr "")) df cols in
  extends df0 df' ∧ well_formed df'
  ∧ (∀ c, c ∈ columns df' ↔ c ∈ columns df ∨ c ∈ cols).
Proof.
  revert df. induction cols as [|col cols IH]; intros df He Hwf Hd; simpl.
  - split_and!; [done..|]. intros c. rewrite elem_of_nil. naive_solver.
  - destruct (IH (set_column df col (λ _, VStr ""))) as (He' & Hwf' & Hc').
    + apply extends_set_blank; [done|]. apply Hd. by left.
    + by apply set_column_well_formed.
    + intros c Hc. apply Hd. by right.
    + split_and!; [done..|]. intros c.
      rewrite Hc', set_column_columns, elem_of_cons. naive_solver.
Qed.

Lemma extends_select df0 df cols :
  extends df0 df → (∀ c, c ∈ columns df0 → c ∈ cols) →
  extends df0 (select df cols).
Proof.
  intros [Hc Hr] Hsub. split; [done|].
  cbn [select rows]. apply Forall2_fmap_r.
  eapply Forall2_impl; [exact Hr|]. intros r r' H c.
  destruct (H c) as [Ha Hb]. rewrite lookup_select_row. split.
  - intros Hin. rewrite (proj2 (contains_true _ _) (Hsub c Hin)). by apply Ha.
  - intros Hn. destruct (contains c cols); auto.
Qed.

(** Lines 470-509 *)
Lemma align_to_existing_spec d df :
  well_formed df → (∀ c, c ∈ first_columns → c ∈ dict_keys d) →
  let aligned := align_to_existing d df (frame_of_dict d) in
  extends df aligned.1 ∧ well_formed aligned.1 ∧ row_of_dict d aligned.2
  ∧ (∀ c, c ∈ columns aligned.2 ↔ c ∈ columns aligned.1)
  ∧ (∀ c, c ∈ dict_keys d → c ∈ columns aligned.2)
  ∧ (∀ c, c ∈ columns aligned.1 → c ∈ columns df ∨ c ∈ dict_keys d).
Proof.
  intros Hwf Hfirst. unfold align_to_existing.
  set (existing0 := foldl _ (columns df) first_columns).
  assert (∀ c, c ∈ existing0 → c ∈ columns df) as Hex0.
  { intros c. apply elem_of_remove_all_inv. }
  assert (∀ c, c ∈ columns df → c ∈ first_columns ∨ c ∈ existing0) as Hex0'.
  { intros c. apply elem_of_remove_all. }
  destruct (row_of_dict_fill_missing d (frame_of_dict d) existing0
              (row_of_dict_frame_of_dict d)) as [Hnr1 Hc1].
  set (nr1 := fill_missing d (frame_of_dict d) existing0) in *.
  assert (row_of_dict d (select nr1 existing0)) as Hnr2.
  { apply row_of_dict_select; [done|]. intros c Hc. apply Hc1. by right. }
  set (nr2 := select nr1 existing0) in *.
  set (new_cols := List.filter _ (dict_keys d)).
  assert (∀ c, c ∈ new_cols ↔
               c ∈ dict_keys d ∧ (c ∉ existing0) ∧ (c ∉ first_columns)) as Hnew.
  { intros c. subst new_cols.
    rewrite (elem_of_bool_filter
               (λ col, negb (contains col existing0)
                       && negb (contains col first_columns))).
    by rewrite andb_true_iff, !negb_true_iff, !contains_false. }
  clearbody new_cols.
  destruct (set_all_blank_extends df new_cols df (extends_refl df Hwf) Hwf)
    as (He1 & Hwf1 & Hcd1).
  { intros c [_ [Hn1 Hn2]]%Hnew Hin. destruct (Hex0' c Hin); done. }
  set (df1 := foldl (λ df col, set_column df col (λ _, VStr "")) df new_cols) in *.
  destruct (row_of_dict_set_all d nr2 new_cols Hnr2) as [Hnr3 Hc3].
  set (nr3 := foldl _ nr2 new_cols) in *.
  destruct (fill_blank_extends first_columns df1 Hwf1)
    as (He2 & Hwf2 & Hin2 & Hb2 & _).
  set (df2 := foldl _ df1 first_columns) in *.
  set (final_cols := first_columns ++ List.filter _ (existing0 ++ new_cols)).
  assert (∀ c, c ∈ final_cols ↔
               c ∈ first_columns ∨ c ∈ existing0 ∨ c ∈ new_cols) as Hfinal.
  { intros c. subst final_cols. rewrite elem_of_app.
    rewrite (elem_of_bool_filter (λ col, negb (contains col first_columns))).
    rewrite elem_of_app, negb_true_iff, contains_false.
    destruct (decide (c ∈ first_columns)); naive_solver. }
  clearbody final_cols.
  assert (∀ c, c ∈ dict_keys d → c ∈ final_cols) as Hkeys.
  { intros c Hc. apply Hfinal.
    destruct (decide (c ∈ first_columns)); [by left|right].
    destruct (decide (c ∈ existing0)); [by left|right]. by apply Hnew. }
  set (nr4 := select nr3 _).
  assert (row_of_dict d nr4) as Hnr4.
  { subst nr4. apply row_of_dict_select; [done|].
    intros c Hc.
    apply (elem_of_bool_filter (λ col, contains col (columns nr3))) in Hc
      as [_ Hc]. by apply contains_true. }
  clearbody nr4.
  destruct (row_of_dict_fill_missing d nr4 final_cols Hnr4) as [Hnr5 Hc5].
  set (nr5 := fill_missing d nr4 final_cols) in *.
  cbn [fst snd]. split_and!.
  - apply extends_select.
    + eapply extends_trans; [exact He1|exact He2].
    + intros c Hc. apply Hfinal. destruct (Hex0' c Hc); auto.
  - apply select_well_formed.
  - apply row_of_dict_select; [done|]. intros c Hc. apply Hc5. by right.
  - done.
  - exact Hkeys.
  - intros c Hc. cbn [select columns] in Hc. apply Hfinal in Hc.
    destruct Hc as [Hc|[Hc|Hc]].
    + right. by apply Hfirst.
    + left. by apply Hex0.
    + right. by apply Hnew.
Qed.

(** ** The fields written into the dictionary *)

Ltac fill_details_lookup :=
  unfold fill_details; rewrite dict_lookup_fold_set;
  match goal with
  | |- context [negb (contains "Position" (dict_keys ?d))] =>
      destruct (negb (contains "Position" (dict_keys d)))
  end;
  rewrite !dict_lookup_set.

Lemma fill_details_other d s V remark k :
  k ∉ written_keys →
  dict_lookup (fill_details d s V remark) k = dict_lookup d k.
Proof.
  intros Hk. unfold written_keys in Hk.
  rewrite elem_of_app, !elem_of_cons, elem_of_nil in Hk.
  assert (contains k manual_columns = false) as Hm.
  { apply contains_false. tauto. }
  fill_details_lookup; rewrite Hm;
    repeat (rewrite bool_decide_eq_false_2; [|intros <-; tauto]); done.
Qed.

Lemma fill_details_vendor d s V remark :
  dict_lookup (fill_details d s V remark) "Vendor_Name" = Some (VStr V).
Proof.
  fill_details_lookup; cbn; by destruct V.
Qed.

Lemma fill_details_remark d s V remark :
  dict_lookup (fill_details d s V remark) "Profile_Remark" = Some (VStr remark).
Proof. fill_details_lookup; reflexivity. Qed.

Lemma fill_details_status d s V remark :
  dict_lookup (fill_details d s V remark) "Resume_Screening_Status"
  = Some (VStr (if bool_decide (remark = "Duplicate Profile")
                then "Duplicate Profile" else desired_status s)).
Proof. fill_details_lookup; reflexivity. Qed.

Lemma fill_details_manual d s V remark k :
  k ∈ manual_columns →
  dict_lookup (fill_details d s V remark) k = Some (VStr "").
Proof.
  intros Hk%contains_true. unfold fill_details.
  by rewrite dict_lookup_fold_set, Hk.
Qed.

Lemma fill_details_first d s V remark k :
  k ∈ first_columns → k ∈ dict_keys (fill_details d s V remark).
Proof.
  intros Hk. apply dict_keys_lookup. unfold first_columns in Hk.
  rewrite !elem_of_cons, elem_of_nil in Hk.
  destruct Hk as [->|[->|[->|[]]]]; fill_details_lookup; cbn; eauto.
Qed.

Lemma fill_details_keeps d s V remark k :
  k ∈ dict_keys d → k ∈ dict_keys (fill_details d s V remark).
Proof.
  intros Hk. unfold fill_details.
  repeat match goal with
         | |- _ ∈ dict_keys (foldl _ _ _) => idtac
         end.
  apply dict_keys_lookup. apply dict_keys_lookup in Hk as [v Hv].
  fill_details_lookup;
    repeat match goal with
           | |- context [if ?b then _ else _] => destruct b
           end; eauto.
Qed.

(** ** Adding the row *)

(** What [add_candidate] saves: the rows of the tracker as they were,
    with blanks under the new columns, and one more row that holds the
    filled dictionary. *)
Lemma add_candidate_rows d0 df s V remark :
  well_formed df →
  let res := add_candidate d0 df s V remark in
  let d := fill_details d0 s V remark in
  u_details res = d ∧ u_added res = true ∧ u_reason res = ""
  ∧ u_remark res = VStr remark ∧ u_status res = None
  ∧ ∃ saved old new_row,
      u_store res = Sheet saved ∧ rows saved = old ++ [new_row]
      ∧ Forall2 (row_ext (columns df)) (rows df) old
      ∧ (∀ c, c ∈ columns saved ↔ c ∈ columns df ∨ c ∈ dict_keys d)
      ∧ (∀ c, c ∈ dict_keys d → new_row !! c = dict_lookup d c)
      ∧ (∀ c, c ∉ dict_keys d →
           new_row !! c = None ∨ new_row !! c = Some (VStr "")).
Proof.
  intros Hwf res d. subst res. unfold add_candidate. fold d.
  assert (∀ c, c ∈ first_columns → c ∈ dict_keys d) as Hfirst.
  { intros c. apply fill_details_first. }
  assert (∀ c, c ∈ manual_columns → c ∈ dict_keys d) as Hmanual.
  { intros c Hc. apply dict_keys_lookup. subst d.
    rewrite fill_details_manual by done. eauto. }
  set (pair := if negb (df_empty df)
               then align_to_existing d df (frame_of_dict d)
               else (df, align_to_details d (frame_of_dict d))).
  assert (extends df pair.1 ∧ row_of_dict d pair.2
          ∧ (∀ c, c ∈ dict_keys d → c ∈ columns pair.2)
          ∧ (∀ c, c ∈ columns pair.1 → c ∈ columns df ∨ c ∈ dict_keys d)
          ∧ (∀ c, c ∈ columns pair.2 → c ∈ columns pair.1 ∨ c ∈ dict_keys d))
    as (He & Hx & Hk & Hb1 & Hb2).
  { subst pair. destruct (negb (df_empty df)).
    - destruct (align_to_existing_spec d df Hwf Hfirst)
        as (H1 & _ & H3 & H4 & H5 & H6).
      split_and!; try done. intros c Hc. left. by apply H4.
    - destruct (align_to_details_row d Hfirst) as [H1 H2]. cbn [fst snd].
      split_and!; [by apply extends_refl|done| |auto|].
      + intros c Hc. by apply H2.
      + intros c Hc. right. by apply H2. }
  clearbody pair. destruct pair as [dfA nrA]. cbn [fst snd] in *.
  destruct Hx as (rA & HrA & HxA).
  set (cat := concat dfA nrA).
  assert (∀ c, c ∈ columns cat ↔ c ∈ columns dfA ∨ c ∈ columns nrA) as Hcat.
  { intros c. subst cat. cbn [concat columns]. rewrite elem_of_app.
    rewrite (elem_of_bool_filter (λ c, negb (contains c (columns dfA)))).
    rewrite negb_true_iff, contains_false.
    destruct (decide (c ∈ columns dfA)); tauto. }
  set (cols := final_order (columns cat)).
  assert (∀ c, c ∈ cols ↔ c ∈ columns df ∨ c ∈ dict_keys d) as Hcols.
  { intros c. subst cols. rewrite elem_of_final_order, Hcat.
    destruct He as [Hsub _]. split.
    - intros [[H|H]|H]; auto. destruct (Hb2 c H); auto.
    - intros [H|H]; auto. }
  clearbody cols. split_and!; try done.
  exists (select cat cols),
    (filter (λ kv : string * value, kv.1 ∈ cols) <$> rows dfA),
    (filter (λ kv : string * value, kv.1 ∈ cols) rA).
  split_and!.
  - done.
  - subst cat. cbn [select concat rows]. by rewrite fmap_app, HrA.
  - apply (extends_select df dfA cols He). intros c Hc. apply Hcols. by left.
  - done.
  - intros c Hc. rewrite lookup_select_row, HxA.
    rewrite (proj2 (contains_true _ _) (proj2 (Hcols c) (or_intror Hc))).
    rewrite (proj2 (contains_true _ _) (Hk c Hc)).
    apply dict_keys_lookup in Hc as [v Hv]. unfold dict_get. by rewrite Hv.
  - intros c Hc. rewrite lookup_select_row, HxA.
    assert (dict_get d c (VStr "") = VStr "") as ->.
    { unfold dict_get. rewrite dict_keys_lookup in Hc.
      destruct (dict_lookup d c); [|done]. by destruct Hc. }
    destruct (contains c cols), (contains c (columns nrA)); auto.
Qed.

(** ** The tracker read back after a row was added *)

Lemma table_of_no_blank folder r c :
  r ∈ rows (table_of folder) → r !! c ≠ Some (VStr "").
Proof.
  destruct folder as [| |df]; [by intros ?%elem_of_nil..|].
  change (table_of (Sheet df)) with (sheet_cells df). cbn [sheet_cells rows].
  intros (r0 & -> & _)%list_elem_of_fmap.
  rewrite lookup_sheet_row. destruct (contains c (columns df)); [|done].
  destruct (r0 !! c) as [v|]; [|done]. case_bool_decide; congruence.
Qed.

Lemma retagged_not_blank folder r c :
  r ∈ rows (table_of folder) → retagged (table_of folder) r c ≠ VStr "".
Proof.
  intros Hr. unfold retagged. destruct (_ && _); [done|].
  unfold cell. pose proof (table_of_no_blank folder r c Hr) as H.
  destruct (r !! c) as [v|]; simpl; congruence.
Qed.

Lemma Forall2_elem_of_l {A B} (R : A → B → Prop) l k :
  Forall2 R l k → Forall2 (λ x y, x ∈ l ∧ R x y) l k.
Proof.
  intros H. apply Forall2_same_length_lookup_2; [by eapply Forall2_length|].
  intros i x y Hx Hy. split; [by eapply list_elem_of_lookup_2|].
  by eapply Forall2_lookup_lr.
Qed.

Lemma added_table d0 folder s V remark :
  let res := add_candidate d0 (load_tracker folder) s V remark in
  let d := fill_details d0 s V remark in
  ∃ old new_row,
    rows (table_of (u_store res)) = old ++ [new_row]
    ∧ Forall2 (kept (table_of folder)) (rows (table_of folder)) old
    ∧ (∀ c, c ∈ columns (table_of folder) → c ≠ "Date_Shortlisted" →
         c ∈ columns (table_of (u_store res)))
    ∧ (∀ c, c ∈ dict_keys d → c ∈ columns (table_of (u_store res)))
    ∧ (∀ c, c ∈ dict_keys d → cell new_row c = stored (dict_get d c (VStr "")))
    ∧ (∀ c, c ∉ dict_keys d → cell new_row c = VNaN).
Proof.
  intros res d.
  destruct (load_tracker_rows folder) as (Hwf & Hin & Hback & Hload).
  cbv zeta in Hwf, Hin, Hback, Hload.
  destruct (add_candidate_rows d0 (load_tracker folder) s V remark Hwf)
    as (_ & _ & _ & _ & _ & saved & old & nr & Hst & Hrows & Hold & Hcols
        & Hkeys & Hnot).
  fold res d in Hst, Hcols, Hkeys, Hnot.
  set (T0 := table_of folder) in *. set (L := load_tracker folder) in *.
  rewrite Hst. change (table_of (Sheet saved)) with (sheet_cells saved).
  set (clean := λ r : row,
                  filter (λ kv : string * value,
                            kv.1 ∈ columns saved ∧ kv.2 ≠ VStr "") r).
  exists (clean <$> old), (clean nr). split_and!.
  - cbn [sheet_cells rows]. by rewrite Hrows, fmap_app.
  - apply Forall2_fmap_r.
    pose proof (Forall2_elem_of_l _ _ _ Hload) as Hload'.
    eapply Forall2_compose; [|exact Hload'|exact Hold].
    intros r r1 r2 [Hr [Ha Hb]] Hext. split.
    + intros c Hc. subst clean. cbn beta. rewrite lookup_sheet_row.
      destruct (decide (c ∈ columns T0)) as [Hc0|Hc0].
      * assert (c ≠ "Date_Shortlisted") as Hne.
        { intros ->. apply Hc. unfold touched. apply elem_of_app. left. by left. }
        assert (c ∈ columns L) as HcL by by apply Hin.
        rewrite (proj2 (contains_true _ _) (proj2 (Hcols c) (or_introl HcL))).
        rewrite (proj1 (Hext c) HcL), (Ha c Hc).
        pose proof (table_of_no_blank folder r c Hr) as Hnb.
        destruct (r !! c) as [v|]; [|done]. case_bool_decide; congruence.
      * rewrite (table_of_well_formed folder r c Hr Hc0).
        assert (c ∉ columns L) as HcL.
        { intros H. by destruct (Hback c H). }
        destruct (contains c (columns saved)); [|done].
        by destruct (proj2 (Hext c) HcL) as [-> | ->].
    + intros c Hc Hne. subst clean. rewrite cell_sheet_row.
      assert (c ∈ columns L) as HcL by by apply Hin.
      rewrite (proj2 (contains_true _ _) (proj2 (Hcols c) (or_introl HcL))).
      unfold cell at 1. rewrite (proj1 (Hext c) HcL). fold (cell r1 c).
      rewrite (Hb c Hc Hne). unfold stored.
      rewrite bool_decide_eq_false_2; [done|].
      by apply retagged_not_blank.
  - intros c Hc Hne. cbn [sheet_cells columns]. apply Hcols. left.
    by apply Hin.
  - intros c Hc. cbn [sheet_cells columns]. apply Hcols. by right.
  - intros c Hc. subst clean. rewrite cell_sheet_row.
    rewrite (proj2 (contains_true _ _) (proj2 (Hcols c) (or_intror Hc))).
    unfold cell. rewrite (Hkeys c Hc). unfold dict_get.
    apply dict_keys_lookup in Hc as [v ->]. done.
  - intros c Hc. subst clean. rewrite cell_sheet_row.
    destruct (contains c (columns saved)); [|done]. unfold cell, stored.
    by destruct (Hnot c Hc) as [-> | ->].
Qed.

(** ** The update by the resolution of the candidate *)

Lemma update_by_resolution d folder s V allow :
  update_tracker_excel d folder s V allow =
  match Spec.resolve d V (rows (table_of folder)) with
  | None => add_or_block d folder s V false
  | Some (t, m) =>
      match List.find (is_same_vendor (vendor_norm V)) m with
      | Some r =>
          mkUpdate folder d false (Spec.key t +:+ "_same_vendor")
            (row_get (table_of folder) r "Profile_Remark" (VStr ""))
            (Some (row_get (table_of folder) r "Resume_Screening_Status"
                     (VStr "Unknown")))
      | None => add_or_block d folder s V true
      end
  end.
Proof.
  unfold update_tracker_excel.
  pose proof (check_answer d folder V) as H. cbv zeta in H.
  destruct (Spec.resolve d V (rows (table_of folder))) as [[t m]|].
  - destruct (List.find _ m) as [r|].
    + rewrite H. cbn [found c_exists c_reason c_status c_remark].
      by rewrite (proj1 (endswith_same t)).
    + destruct H as (first & rest & _ & ->).
      cbn [found c_exists c_reason c_status c_remark].
      by rewrite (proj1 (endswith_different t)), (proj2 (endswith_different t)).
  - by rewrite H.
Qed.

(** ** The second duplicate check agrees with the first *)

Lemma identity_not_touched c :
  c ∈ ["Email_ID"; "Candidate_Name"; "Contact_Number"; "Vendor_Name";
       "Profile_Remark"] → c ∉ touched.
Proof.
  rewrite !elem_of_cons, elem_of_nil.
  intros [->|[->|[->|[->|[->|[]]]]]]; apply contains_false; reflexivity.
Qed.

Section SameIdentity.
Context (r r' : row) (H : same_identity r r').

Lemma same_identity_cell c :
  c ∈ ["Email_ID"; "Candidate_Name"; "Contact_Number"; "Vendor_Name";
       "Profile_Remark"] → cell r' c = cell r c.
Proof. intros Hc. unfold cell. by rewrite (H c (identity_not_touched c Hc)). Qed.

Lemma same_identity_email : email_norm_of r' = email_norm_of r.
Proof.
  unfold email_norm_of. rewrite same_identity_cell; [done|].
  rewrite !elem_of_cons. auto.
Qed.

Lemma same_identity_name : name_norm_of r' = name_norm_of r.
Proof.
  unfold name_norm_of. rewrite same_identity_cell; [done|].
  rewrite !elem_of_cons. auto.
Qed.

Lemma same_identity_contact : contact_norm_of r' = contact_norm_of r.
Proof.
  unfold contact_norm_of. rewrite same_identity_cell; [done|].
  rewrite !elem_of_cons. auto.
Qed.

Lemma same_identity_vendor : existing_vendor r' = existing_vendor r.
Proof.
  unfold existing_vendor. rewrite same_identity_cell; [done|].
  rewrite !elem_of_cons. auto.
Qed.

Lemma same_identity_email_is e : email_is e r' = email_is e r.
Proof. unfold email_is. by rewrite same_identity_email. Qed.

Lemma same_identity_name_is n : name_is n r' = name_is n r.
Proof. unfold name_is. by rewrite same_identity_name. Qed.

Lemma same_identity_contact_is p : contact_is p r' = contact_is p r.
Proof. unfold contact_is. by rewrite same_identity_contact. Qed.

Lemma same_identity_same_vendor v : is_same_vendor v r' = is_same_vendor v r.
Proof. unfold is_same_vendor. by rewrite same_identity_vendor. Qed.

Lemma same_identity_valid_name : valid_name r' = valid_name r.
Proof. unfold valid_name. by rewrite same_identity_name. Qed.

Lemma same_identity_valid_name_contact :
  valid_name_contact r' = valid_name_contact r.
Proof.
  unfold valid_name_contact.
  by rewrite same_identity_name, same_identity_contact.
Qed.
End SameIdentity.

(** Two tables whose rows agree on identity, under a test that only
    looks at identity. *)
Lemma filter_same_identity (p : row → bool) l l' :
  (∀ r r', same_identity r r' → p r' = p r) →
  Forall2 same_identity l l' →
  Forall2 same_identity (List.filter p l) (List.filter p l').
Proof.
  intros Hp H. induction H as [|r r' l l' Hr _ IH]; simpl; [constructor|].
  rewrite (Hp r r' Hr). destruct (p r); [by constructor|done].
Qed.

Lemma filter_nil_same_identity (p : row → bool) l l' :
  (∀ r r', same_identity r r' → p r' = p r) →
  Forall2 same_identity l l' →
  List.filter p l = [] → List.filter p l' = [].
Proof.
  intros Hp H E. pose proof (filter_same_identity p l l' Hp H) as HF.
  rewrite E in HF. by inversion HF.
Qed.

Lemma email_matches_same d l l' :
  Forall2 same_identity l l' →
  Forall2 same_identity (Spec.email_matches d l) (Spec.email_matches d l').
Proof.
  intros H. unfold Spec.email_matches.
  destruct (Spec.field _) as [e|]; [|constructor].
  apply filter_same_identity; [|done].
  intros r r' Hr. by apply same_identity_email_is.
Qed.

Lemma name_phone_matches_same d l l' :
  Forall2 same_identity l l' →
  Forall2 same_identity (Spec.name_phone_matches d l)
    (Spec.name_phone_matches d l').
Proof.
  intros H. unfold Spec.name_phone_matches.
  destruct (Spec.field _) as [n|]; [|constructor].
  destruct (Spec.phone _) as [p|]; [|constructor].
  apply filter_same_identity; [|done].
  intros r r' Hr.
  by rewrite (same_identity_name_is r r' Hr), (same_identity_contact_is r r' Hr).
Qed.

Lemma name_vendor_matches_same d V l l' :
  Forall2 same_identity l l' →
  Forall2 same_identity (Spec.name_vendor_matches d V l)
    (Spec.name_vendor_matches d V l').
Proof.
  intros H. unfold Spec.name_vendor_matches.
  destruct (Spec.field _) as [n|]; [|constructor].
  destruct (_ && _); [|constructor].
  apply filter_same_identity; [|done].
  intros r r' Hr.
  by rewrite (same_identity_name_is r r' Hr),
    (same_identity_same_vendor r r' Hr).
Qed.

Lemma Forall2_nil_iff {A B} (R : A → B → Prop) l k :
  Forall2 R l k → l = [] ↔ k = [].
Proof. intros H. by destruct H. Qed.

Lemma resolve_None_same d V l l' :
  Forall2 same_identity l l' →
  Spec.resolve d V l = None → Spec.resolve d V l' = None.
Proof.
  intros H. rewrite !resolve_None. intros (H1 & H2 & H3). split_and!.
  - by apply (Forall2_nil_iff _ _ _ (email_matches_same d l l' H)).
  - by apply (Forall2_nil_iff _ _ _ (name_phone_matches_same d l l' H)).
  - by apply (Forall2_nil_iff _ _ _ (name_vendor_matches_same d V l l' H)).
Qed.

Lemma load_tracker_same_identity folder :
  Forall2 same_identity (rows (table_of folder)) (rows (load_tracker folder)).
Proof.
  destruct (load_tracker_rows folder) as (_ & _ & _ & H).
  eapply Forall2_impl; [exact H|]. by intros r r' [? _].
Qed.

Lemma recheck_email_unique d df v remark :
  Spec.email_matches d (rows df) = [] →
  recheck_email df (email_id_norm d) v remark = Remark remark.
Proof.
  intros Hnone. unfold recheck_email, email_id_norm.
  unfold Spec.email_matches, Spec.email_of in Hnone.
  rewrite field_norm_field in Hnone.
  destruct (norm_field (dict_get d "Email_ID" (VStr ""))) as [e|] eqn:He;
    [|done].
  rewrite (norm_field_truthy _ _ He). change (default "" (Some e)) with e.
  cbn [andb]. rewrite valid_emails_isin.
  destruct (isin e sentinels4) eqn:Hs.
  { cbn [negb andb]. rewrite andb_false_r. by destruct (contains _ _). }
  cbn iota beta in Hnone. rewrite Hnone.
  repeat match goal with
         | |- context [if ?b then _ else _] => destruct b
         end; done.
Qed.

Lemma recheck_name_phone_unique d df v remark :
  Spec.name_phone_matches d (rows df) = [] →
  recheck_name_phone df (candidate_name_norm d) (contact_number_norm d) v remark
  = Remark remark.
Proof.
  intros Hnone. unfold recheck_name_phone.
  destruct (bool_decide (remark = "Unique Profile")); [|done].
  rewrite candidate_name_norm_field.
  destruct (norm_field (Spec.name_of d)) as [n|] eqn:En; [|done].
  destruct (contact_number_norm d) as [p|] eqn:Ep;
    [|by rewrite andb_false_r].
  change (default "" (Some n)) with n. change (default "" (Some p)) with p.
  destruct (andb _ _); [|done]. destruct (andb _ _); [|done].
  rewrite name_phone_filter.
  destruct (isin n sentinels4) eqn:Hn;
    [by destruct (List.filter valid_name_contact (rows df))|].
  destruct (isin p sentinels4) eqn:Hp;
    [by destruct (List.filter valid_name_contact (rows df))|].
  cbn [orb].
  assert (List.filter (λ r, name_is n r && contact_is p r) (rows df) = [])
    as ->; [|by destruct (List.filter valid_name_contact (rows df))].
  unfold Spec.name_phone_matches in Hnone.
  assert (Spec.field (Spec.name_of d) = Some n) as Hf.
  { apply field_Some. split; [done|]. by apply isin_false. }
  rewrite Hf in Hnone.
  destruct (Spec.phone (Spec.phone_of d)) as [p'|] eqn:Esp.
  - apply phone_Some in Esp as [E _]. by assert (p' = p) as -> by congruence.
  - apply (phone_None d p) in Esp; [|done]. apply isin_false in Hp. done.
Qed.

Lemma recheck_name_vendor_unique d df V remark :
  Spec.name_vendor_matches d V (rows df) = [] →
  recheck_name_vendor df (candidate_name_norm d) (contact_number_norm d)
    (vendor_norm V) remark = Remark remark.
Proof.
  intros Hnone. unfold recheck_name_vendor.
  destruct (bool_decide (remark = "Unique Profile")); [|done].
  rewrite candidate_name_norm_field.
  destruct (norm_field (Spec.name_of d)) as [n|] eqn:En; [|done].
  rewrite (norm_field_truthy _ _ En). change (default "" (Some n)) with n.
  cbn [andb].
  destruct (negb (some_truthy (contact_number_norm d))) eqn:Ha; [|done].
  destruct (negb (bool_decide (vendor_norm V = ""))) eqn:Hv; [|done].
  cbn [andb]. destruct (andb _ _); [|done].
  rewrite name_filter.
  destruct (isin n sentinels4) eqn:Hn;
    [by destruct (List.filter valid_name (rows df))|].
  unfold same_vendor_row. rewrite find_after_filter.
  unfold Spec.name_vendor_matches in Hnone.
  assert (Spec.field (Spec.name_of d) = Some n) as Hf.
  { apply field_Some. split; [done|]. by apply isin_false. }
  rewrite Hf, phone_absent_spec, Ha, Hv in Hnone. cbn [andb] in Hnone.
  rewrite Hnone.
  destruct (List.filter valid_name (rows df)); [done|].
  by destruct (List.filter (name_is n) (rows df)).
Qed.

(** A candidate that resolves to no row passes the second check as a
    unique profile. *)
Lemma recheck_unique d df V :
  Spec.resolve d V (rows df) = None →
  recheck d df V "Unique Profile" = Remark "Unique Profile".
Proof.
  intros (H1 & H2 & H3)%resolve_None. unfold recheck.
  destruct (negb (df_empty df)); [|done].
  rewrite recheck_email_unique by done. cbn [and_then].
  rewrite recheck_name_phone_unique by done. cbn [and_then].
  by apply recheck_name_vendor_unique.
Qed.

Lemma is_other_vendor_house r : is_other_vendor "" r = false.
Proof. done. Qed.

Ltac house_cases :=
  repeat first
    [ rewrite is_other_vendor_house
    | match goal with
      | |- context [match ?l with [] => _ | _ :: _ => _ end] => destruct l
      | |- context [if ?b then _ else _] => destruct b
      end ];
  done.

(** A house submission is never blocked by the second check, nor marked
    by it. *)
Lemma recheck_house d df V remark :
  vendor_norm V = "" → recheck d df V remark = Remark remark.
Proof.
  intros Hv. unfold recheck. rewrite Hv.
  destruct (negb (df_empty df)); [|done].
  assert (∀ l, same_vendor_row "" l = None) as Hsame.
  { intros l. apply find_none_iff. by intros r _. }
  assert (recheck_email df (email_id_norm d) "" remark = Remark remark) as ->.
  { unfold recheck_email. rewrite Hsame. house_cases. }
  cbn [and_then].
  assert (recheck_name_phone df (candidate_name_norm d) (contact_number_norm d)
            "" remark = Remark remark) as ->.
  { unfold recheck_name_phone. rewrite Hsame. house_cases. }
  cbn [and_then]. unfold recheck_name_vendor.
  by rewrite andb_false_r.
Qed.

Lemma add_or_block_unique d folder s V :
  Spec.resolve d V (rows (table_of folder)) = None →
  add_or_block d folder s V false
  = add_candidate d (load_tracker folder) s V "Unique Profile".
Proof.
  intros H. unfold add_or_block. cbn [negb].
  rewrite recheck_unique; [done|].
  eapply resolve_None_same; [apply load_tracker_same_identity|done].
Qed.

Lemma add_or_block_duplicate d folder s V :
  add_or_block d folder s V true
  = add_candidate d (load_tracker folder) s V "Duplicate Profile".
Proof. done. Qed.

(** ** What an update returns *)

(** The three ways an update ends. *)
Lemma update_cases d folder s V allow :
  let res := update_tracker_excel d folder s V allow in
  (∃ t m r, Spec.resolve d V (rows (table_of folder)) = Some (t, m)
      ∧ List.find (is_same_vendor (vendor_norm V)) m = Some r
      ∧ res = mkUpdate folder d false (Spec.key t +:+ "_same_vendor")
                (row_get (table_of folder) r "Profile_Remark" (VStr ""))
                (Some (row_get (table_of folder) r "Resume_Screening_Status"
                         (VStr "Unknown"))))
  ∨ (∃ t m, Spec.resolve d V (rows (table_of folder)) = Some (t, m)
      ∧ List.find (is_same_vendor (vendor_norm V)) m = None
      ∧ res = add_candidate d (load_tracker folder) s V "Duplicate Profile")
  ∨ (Spec.resolve d V (rows (table_of folder)) = None
      ∧ res = add_candidate d (load_tracker folder) s V "Unique Profile").
Proof.
  intros res. subst res. rewrite update_by_resolution.
  destruct (Spec.resolve d V (rows (table_of folder))) as [[t m]|] eqn:E.
  - destruct (List.find _ m) as [r|] eqn:Hf.
    + left. by exists t, m, r.
    + right. left. by exists t, m.
  - right. right. split; [done|]. by apply add_or_block_unique.
Qed.

Lemma add_candidate_result d df s V remark :
  let res := add_candidate d df s V remark in
  u_added res = true ∧ u_reason res = "" ∧ u_remark res = VStr remark
  ∧ u_status res = None ∧ u_details res = fill_details d s V remark.
Proof.
  unfold add_candidate. by destruct (if negb (df_empty df) then _ else _).
Qed.

(** An update that adds nothing leaves the store and the dictionary as
    they were, and never reports a changed status. *)
Lemma update_not_added d folder s V allow :
  let res := update_tracker_excel d folder s V allow in
  u_added res = false →
  u_store res = folder ∧ u_details res = d
  ∧ PyStr.endswith (u_reason res) "_same_vendor" = true.
Proof.
  intros res. destruct (update_cases d folder s V allow)
    as [(t & m & r & _ & _ & H)|[(t & m & _ & _ & H)|[_ H]]];
    fold res in H; rewrite H.
  - intros _. split_and!; [done..|]. apply endswith_same.
  - by rewrite (proj1 (add_candidate_result _ _ _ _ _)).
  - by rewrite (proj1 (add_candidate_result _ _ _ _ _)).
Qed.

Lemma status_updated_unreachable d folder s V allow :
  u_reason (update_tracker_excel d folder s V allow) ≠ "status_updated".
Proof.
  destruct (update_cases d folder s V allow)
    as [(t & m & r & _ & _ & H)|[(t & m & _ & _ & H)|[_ H]]];
    cbv zeta in H; rewrite H.
  - by destruct t.
  - by rewrite (proj1 (proj2 (add_candidate_result _ _ _ _ _))).
  - by rewrite (proj1 (proj2 (add_candidate_result _ _ _ _ _))).
Qed.

(** ** C1 *)

(** C1, at the input where the code departs from it. The tracker holds
    Jane Doe, shortlisted for the vendor Acme. The same candidate is
    submitted again for Acme as rejected with [allow_status_change] set:
    the call is blocked as a same-vendor duplicate, the stored status is
    still "Shortlisted" and the store is unchanged; "status_updated" is
    not returned ([status_updated_unreachable]: by no call at all). *)
Theorem override_request_is_blocked :
  let res := update_tracker_excel (u_details Scenario.first)
               (u_store Scenario.first) Scenario.reject "Acme" true in
  u_added res = false
  ∧ u_reason res = "email_same_vendor"
  ∧ u_status res = Some (VStr "Shortlisted")
  ∧ u_store res = u_store Scenario.first
  ∧ (λ r, cell r "Resume_Screening_Status")
      <$> rows (table_of (u_store res)) = [VStr "Shortlisted"].
Proof.
  intros res.
  assert (u_added res = false) as Hadd by (vm_compute; reflexivity).
  destruct (update_not_added _ _ _ _ _ Hadd) as (Hst & _ & _). fold res in Hst.
  split_and!; [done|vm_compute; reflexivity..|done|].
  rewrite Hst. vm_compute. reflexivity.
Qed.

Lemma desired_status_not_blank s : VStr (desired_status s) ≠ VStr "".
Proof. unfold desired_status. by destruct (is_shortlisted s). Qed.

Lemma status_under_not_blank remark s : VStr (status_under remark s) ≠ VStr "".
Proof.
  unfold status_under. case_bool_decide; [done|]. apply desired_status_not_blank.
Qed.

(** The table read back after [add_candidate]: the old rows kept, and the
    new row last with the cells of the submission. *)
Lemma added_row d0 folder s V remark :
  let res := add_candidate d0 (load_tracker folder) s V remark in
  ∃ old new_row,
    rows (table_of (u_store res)) = old ++ [new_row]
    ∧ Forall2 (kept (table_of folder)) (rows (table_of folder)) old
    ∧ cell new_row "Profile_Remark" = stored (VStr remark)
    ∧ cell new_row "Resume_Screening_Status" = VStr (status_under remark s)
    ∧ cell new_row "Vendor_Name" = stored (VStr V)
    ∧ (∀ c, c ∉ written_keys →
         cell new_row c = stored (dict_get d0 c (VStr ""))).
Proof.
  intros res. destruct (added_table d0 folder s V remark)
    as (old & nr & Hrows & Hold & _ & _ & Hkeys & Hnot).
  fold res in Hrows. exists old, nr.
  set (d := fill_details d0 s V remark) in *.
  assert (∀ c v, dict_lookup d c = Some v → cell nr c = stored v) as Hcell.
  { intros c v Hv. rewrite Hkeys.
    - unfold dict_get. by rewrite Hv.
    - apply dict_keys_lookup. by exists v. }
  split_and!; [done..| | | |].
  - apply Hcell. apply fill_details_remark.
  - rewrite (Hcell _ _ (fill_details_status d0 s V remark)).
    unfold stored. rewrite bool_decide_eq_false_2; [done|].
    apply status_under_not_blank.
  - apply Hcell. apply fill_details_vendor.
  - intros c Hc.
    pose proof (fill_details_other d0 s V remark c Hc) as Hl. fold d in Hl.
    destruct (dict_lookup d0 c) as [v|] eqn:E.
    + rewrite (Hcell c v Hl). unfold dict_get. by rewrite E.
    + rewrite Hnot.
      * unfold dict_get. by rewrite E.
      * rewrite dict_keys_lookup, Hl. by intros [? ?].
Qed.

Lemma identity_not_written c :
  c ∈ ["Email_ID"; "Candidate_Name"; "Contact_Number"] → c ∉ written_keys.
Proof.
  rewrite !elem_of_cons, elem_of_nil.
  intros [->|[->|[->|[]]]]; apply contains_false; reflexivity.
Qed.

(** ** C8 *)

(** C8. When the tracker workbook is missing or cannot be read, the check
    answers "absent" (no status, empty reason and remark) and the update
    adds the submission as the only row, a unique profile with the
    requested status; no error reaches the caller. *)
Theorem unreadable_tracker_is_empty (d : pydict) (folder : store)
    (s : Screening) (V : string) (allow : bool) :
  read_excel folder = None →
  let res := update_tracker_excel d folder s V allow in
  check_candidate_status_in_tracker d folder V = mkCheck false None "" (VStr "")
  ∧ u_added res = true ∧ u_reason res = ""
  ∧ u_remark res = VStr "Unique Profile" ∧ u_status res = None
  ∧ ∃ new_row,
      rows (table_of (u_store res)) = [new_row]
      ∧ cell new_row "Profile_Remark" = VStr "Unique Profile"
      ∧ cell new_row "Resume_Screening_Status" = VStr (desired_status s)
      ∧ cell new_row "Vendor_Name" = stored (VStr V)
      ∧ ∀ c, c ∈ ["Email_ID"; "Candidate_Name"; "Contact_Number"] →
             cell new_row c = stored (dict_get d c (VStr "")).
Proof.
  intros Hread res.
  assert (rows (table_of folder) = []) as Hrows.
  { unfold table_of. by rewrite Hread. }
  assert (Spec.resolve d V (rows (table_of folder)) = None) as Hres.
  { rewrite Hrows. apply resolve_no_rows. }
  split.
  { rewrite check_spec. unfold Spec.check. by rewrite Hres. }
  destruct (update_cases d folder s V allow)
    as [(t & m & r & E & _)|[(t & m & E & _)|[_ H]]]; [congruence..|].
  fold res in H. rewrite H.
  destruct (add_candidate_result d (load_tracker folder) s V "Unique Profile")
    as (-> & -> & -> & -> & _).
  split_and!; [done..|].
  destruct (added_row d folder s V "Unique Profile")
    as (old & nr & Hr & Hold & H1 & H2 & H3 & H4).
  rewrite Hrows in Hold. inversion Hold; subst. exists nr.
  split_and!; [done|done|done|done|].
  intros c Hc. by apply H4, identity_not_written.
Qed.

(** A first submission into a folder without a tracker. *)
Lemma unreadable_tracker_is_empty_witness :
  u_added (update_tracker_excel Scenario.jane Missing Scenario.shortlist
             "Acme" false) = true.
Proof.
  by destruct (unreadable_tracker_is_empty Scenario.jane Missing
                 Scenario.shortlist "Acme" false eq_refl) as (_ & H & _).
Defined.

(** ** C7 *)

(** C7, at the input where the code departs from it. A first submission
    whose dictionary has the key "Position" before "Email_ID" is added to
    an empty tracker. The saved columns start with the three fixed ones
    and end with the manual ones, but "Position" follows "Contact_Number":
    line 532 takes the index of "Email_ID" before line 535 removes
    "Position" in front of it, so the insertion lands one place too far. *)
Theorem position_lands_one_column_late :
  let res := update_tracker_excel Scenario.position_first Missing
               Scenario.shortlist "Acme" false in
  u_added res = true
  ∧ columns (table_of (u_store res))
    = ["Vendor_Name"; "Profile_Shared_Date"; "Profile_Remark";
       "Candidate_Name"; "Email_ID"; "Contact_Number"; "Position";
       "Resume_Screening_Feedback"; "Similarity_Score"; "Average_Score";
       "Shortlisted_CV_Path"; "Resume_Screening_Status"; "Screening_Date"]
      ++ manual_columns
  ∧ position_after_email
      ["Candidate_Name"; "Position"; "Email_ID"; "Contact_Number"]
    = ["Candidate_Name"; "Email_ID"; "Contact_Number"; "Position"].
Proof. vm_compute. done. Qed.

(** ** C10 *)

Lemma is_same_vendor_house r : is_same_vendor "" r = false.
Proof. done. Qed.

Lemma name_vendor_matches_house d V table :
  vendor_norm V = "" → Spec.name_vendor_matches d V table = [].
Proof.
  intros Hv. unfold Spec.name_vendor_matches. rewrite Hv.
  destruct (Spec.field _); [|done]. by rewrite andb_false_r.
Qed.

Lemma resolve_house d V table t m :
  vendor_norm V = "" → Spec.resolve d V table = Some (t, m) →
  t ≠ Spec.ByNameVendor
  ∧ (Spec.email_matches d table ≠ [] ∨ Spec.name_phone_matches d table ≠ []).
Proof.
  intros Hv E. pose proof (resolve_tier _ _ _ _ _ E) as H.
  destruct (resolve_Some_cons _ _ _ _ _ E) as (first & rest & ->).
  destruct t.
  - split; [done|]. left. by rewrite <- H.
  - destruct H as [_ H]. split; [done|]. right. by rewrite <- H.
  - destruct H as (_ & _ & H). by rewrite name_vendor_matches_house in H.
Qed.

(** C10. A submission whose vendor is empty is never blocked as a
    same-vendor duplicate, by the check or by the update: it is always
    added. When its email or its name and phone match stored rows, also
    rows of an empty vendor, the check reports a different-vendor
    duplicate and the new row gets "Duplicate Profile" as remark and as
    status; otherwise, the name-and-vendor tier being out of reach, it
    resolves as unique and the new row is a unique profile with the
    requested status. *)
Theorem house_submission_never_blocked (d : pydict) (folder : store)
    (s : Screening) (V : string) (allow : bool) :
  vendor_norm V = "" →
  let table := rows (table_of folder) in
  let chk := check_candidate_status_in_tracker d folder V in
  let res := update_tracker_excel d folder s V allow in
  PyStr.endswith (c_reason chk) "_same_vendor" = false
  ∧ u_added res = true ∧ u_reason res = ""
  ∧ ∃ old new_row,
      rows (table_of (u_store res)) = old ++ [new_row]
      ∧ List.length old = List.length table
      ∧ ((Spec.email_matches d table ≠ [] ∨ Spec.name_phone_matches d table ≠ []) →
         c_exists chk = true
         ∧ PyStr.endswith (c_reason chk) "_different_vendor" = true
         ∧ u_remark res = VStr "Duplicate Profile"
         ∧ cell new_row "Profile_Remark" = VStr "Duplicate Profile"
         ∧ cell new_row "Resume_Screening_Status" = VStr "Duplicate Profile")
      ∧ (Spec.email_matches d table = [] →
         Spec.name_phone_matches d table = [] →
         chk = absent
         ∧ u_remark res = VStr "Unique Profile"
         ∧ cell new_row "Profile_Remark" = VStr "Unique Profile"
         ∧ cell new_row "Resume_Screening_Status" = VStr (desired_status s)).
Proof.
  intros Hv table chk res.
  pose proof (check_answer d folder V) as Hchk. cbv zeta in Hchk.
  fold table chk in Hchk. rewrite Hv in Hchk.
  assert (∀ m, List.find (is_same_vendor "") m = None) as Hfind.
  { intros m. apply find_none_iff. by intros r _. }
  destruct (update_cases d folder s V allow)
    as [(t & m & r & _ & Hf & _)|[(t & m & E & _ & H)|[E H]]].
  - rewrite Hv, Hfind in Hf. done.
  - fold table in E. fold res in H. rewrite E, Hfind in Hchk.
    destruct Hchk as (first & rest & -> & Hchk).
    destruct (resolve_house _ _ _ _ _ Hv E) as [Ht Hne].
    destruct (add_candidate_result d (load_tracker folder) s V
                "Duplicate Profile") as (Ha & Hr & Hrm & _).
    destruct (added_row d folder s V "Duplicate Profile")
      as (old & nr & Hrows & Hold & H1 & H2 & _).
    rewrite H, Hchk. split_and!.
    + apply endswith_different.
    + done.
    + done.
    + exists old, nr. split_and!; [done| | |].
      * symmetry. by eapply Forall2_length.
      * intros _. split_and!; [done|apply endswith_different|done..].
      * intros E1 E2. destruct Hne; done.
  - fold table in E. fold res in H. rewrite E in Hchk.
    apply resolve_None in E as (E1 & E2 & _).
    destruct (add_candidate_result d (load_tracker folder) s V
                "Unique Profile") as (Ha & Hr & Hrm & _).
    destruct (added_row d folder s V "Unique Profile")
      as (old & nr & Hrows & Hold & H1 & H2 & _).
    rewrite H, Hchk. split_and!; [done..|].
    exists old, nr. split_and!; [done| | |].
    + symmetry. by eapply Forall2_length.
    + intros [Hne|Hne]; done.
    + done.
Qed.

(** The scenario's candidate, resubmitted with no vendor into the
    tracker that holds her. *)
Lemma house_submission_never_blocked_witness :
  u_added (update_tracker_excel Scenario.jane (u_store Scenario.first)
             Scenario.reject "" false) = true.
Proof.
  by destruct (house_submission_never_blocked Scenario.jane
                 (u_store Scenario.first) Scenario.reject "" false eq_refl)
    as (_ & H & _).
Defined.

(** ** C2 *)



(** ** Records of an identity *)

Lemma field_stored v e : Spec.field v = Some e → stored v = v ∧ norm v = e.
Proof.
  unfold Spec.field. destruct (truthy v) eqn:Ht; [|done].
  destruct (negb _); [|done]. intros [= <-]. split; [|done].
  unfold stored. rewrite bool_decide_eq_false_2; [done|]. by intros ->.
Qed.

Lemma phone_absent_no_phone v :
  Spec.phone_absent v = true → Spec.phone v = None.
Proof.
  unfold Spec.phone_absent, Spec.phone, Spec.field. intros Ha.
  destruct (truthy v); [|done]. cbn [negb orb andb] in *.
  destruct (isin (norm v) sentinels4) eqn:H4; [done|]. cbn [negb].
  destruct (isin (norm v) sentinels2) eqn:H2.
  { apply isin_true, sentinels2_sentinels4, isin_true in H2. congruence. }
  cbn [orb] in Ha. apply bool_decide_eq_true in Ha. rewrite Ha.
  by rewrite (proj2 (isin_true _ _) empty_sentinel4).
Qed.

Lemma resolve_key d V l k :
  Spec.identity_key d V = Some k →
  match k with
  | Spec.Email e => Spec.email_matches d l = List.filter (has_identity k) l
  | Spec.NamePhone n p =>
      Spec.email_matches d l = []
      ∧ Spec.name_phone_matches d l = List.filter (has_identity k) l
  | Spec.NameVendor n v =>
      Spec.email_matches d l = [] ∧ Spec.name_phone_matches d l = []
      ∧ Spec.name_vendor_matches d V l = List.filter (has_identity k) l
  end.
Proof.
  unfold Spec.identity_key, Spec.email_matches, Spec.name_phone_matches,
    Spec.name_vendor_matches.
  destruct (Spec.field (Spec.email_of d)) as [e|]; [by intros [= <-]|].
  destruct (Spec.field (Spec.name_of d)) as [n|]; [|done].
  destruct (Spec.phone (Spec.phone_of d)) as [p|]; [by intros [= <-]|].
  destruct (_ && _); [|done]. by intros [= <-].
Qed.

(** Rows that match the key decide the tier and the matches of the
    resolution. *)
Lemma resolve_by_key d V l k x m :
  Spec.identity_key d V = Some k →
  List.filter (has_identity k) l = x :: m →
  Spec.resolve d V l = Some (tier_of k, x :: m).
Proof.
  intros Hk Hf. pose proof (resolve_key d V l k Hk) as H.
  unfold Spec.resolve. destruct k as [e|n p|n v]; cbn [tier_of].
  - by rewrite H, Hf.
  - destruct H as [-> ->]. by rewrite Hf.
  - destruct H as (-> & -> & ->). by rewrite Hf.
Qed.

Lemma resolve_None_key d V l k :
  Spec.identity_key d V = Some k → Spec.resolve d V l = None →
  List.filter (has_identity k) l = [].
Proof.
  intros Hk (H1 & H2 & H3)%resolve_None.
  pose proof (resolve_key d V l k Hk) as H. destruct k as [e|n p|n v].
  - by rewrite <- H.
  - destruct H as [_ <-]. done.
  - destruct H as (_ & _ & <-). done.
Qed.


Lemma same_fields_identity_key d d' V :
  Spec.same_fields d d' → Spec.identity_key d' V = Spec.identity_key d V.
Proof. intros (H1 & H2 & H3). unfold Spec.identity_key. by rewrite H1, H2, H3. Qed.

Lemma same_fields_resolve d d' V l :
  Spec.same_fields d d' → Spec.resolve d' V l = Spec.resolve d V l.
Proof.
  intros (H1 & H2 & H3).
  unfold Spec.resolve, Spec.email_matches, Spec.name_phone_matches,
    Spec.name_vendor_matches. by rewrite H1, H2, H3.
Qed.

Lemma same_fields_fill d s V remark :
  Spec.same_fields d (fill_details d s V remark).
Proof.
  unfold Spec.same_fields, Spec.email_of, Spec.name_of, Spec.phone_of, dict_get.
  rewrite !fill_details_other; [done|apply identity_not_written..];
    rewrite !elem_of_cons; auto.
Qed.

Lemma same_fields_refl d : Spec.same_fields d d.
Proof. done. Qed.

Lemma records_vendor d V r : records d V r → existing_vendor r = vendor_norm V.
Proof.
  intros (_ & _ & _ & H). unfold existing_vendor, vendor_norm. rewrite H.
  unfold stored. cbn [truthy]. case_bool_decide as E.
  - injection E as ->. done.
  - rewrite (bool_decide_eq_false_2 (V = "")) by congruence. done.
Qed.

Lemma records_same_vendor d V r :
  records d V r → vendor_norm V ≠ "" →
  is_same_vendor (vendor_norm V) r = true.
Proof.
  intros Hr Hv. unfold is_same_vendor. rewrite (records_vendor d V r Hr).
  rewrite !(bool_decide_eq_false_2 (vendor_norm V = "")) by done.
  by rewrite bool_decide_eq_true_2.
Qed.


Lemma records_has_identity d V V' r k :
  records d V r → Spec.identity_key d V' = Some k →
  Spec.vendor_free k = true ∨ V' = V →
  has_identity k r = true.
Proof.
  intros (He & Hn & Hp & Hv) Hk Hfree. unfold Spec.identity_key in Hk.
  destruct (Spec.field (Spec.email_of d)) as [e|] eqn:Ee.
  { injection Hk as <-. cbn [has_identity]. unfold email_is, email_norm_of.
    apply field_stored in Ee as [Es <-]. rewrite He, Es.
    by apply bool_decide_eq_true. }
  destruct (Spec.field (Spec.name_of d)) as [n|] eqn:En; [|done].
  assert (name_is n r = true) as Hname.
  { unfold name_is, name_norm_of. apply field_stored in En as [Es <-].
    rewrite Hn, Es. by apply bool_decide_eq_true. }
  destruct (Spec.phone (Spec.phone_of d)) as [p|] eqn:Ep.
  { injection Hk as <-. cbn [has_identity]. rewrite Hname. cbn [andb].
    unfold Spec.phone in Ep.
    destruct (Spec.field (Spec.phone_of d)) as [x|] eqn:Ex; [|done].
    destruct (isin _ sentinels4) eqn:Hs; [done|]. injection Ep as <-.
    pose proof (proj1 (field_Some _ _) Ex) as [_ Hx].
    apply field_stored in Ex as [Es <-].
    unfold contact_is, contact_norm_of. rewrite Hp, Es.
    rewrite (proj2 (isin_false _ _) Hx). by apply bool_decide_eq_true. }
  destruct (Spec.phone_absent _); [|done]. cbn [andb] in Hk.
  destruct (bool_decide (vendor_norm V' = "")) eqn:Hvn; [done|].
  injection Hk as <-. destruct Hfree as [?| ->]; [done|].
  cbn [has_identity]. rewrite Hname. cbn [andb].
  apply (records_same_vendor d V r); [done|]. by apply bool_decide_eq_false in Hvn.
Qed.

Lemma has_identity_same k r r' :
  same_identity r r' → has_identity k r' = has_identity k r.
Proof.
  intros H. destruct k; cbn [has_identity].
  - by apply same_identity_email_is.
  - by rewrite (same_identity_name_is r r' H), (same_identity_contact_is r r' H).
  - by rewrite (same_identity_name_is r r' H), (same_identity_same_vendor r r' H).
Qed.

Lemma kept_same_identity df l l' :
  Forall2 (kept df) l l' → Forall2 same_identity l l'.
Proof. intros H. eapply Forall2_impl; [exact H|]. by intros r r' [? _]. Qed.

Lemma kept_records df d V r r' : kept df r r' → records d V r → records d V r'.
Proof.
  intros [H _] (H1 & H2 & H3 & H4). unfold records.
  rewrite <- H1, <- H2, <- H3, <- H4.
  split_and!; apply (same_identity_cell r r' H); rewrite !elem_of_cons; auto.
Qed.

Lemma filter_snoc {A} (p : A → bool) l x :
  List.filter p (l ++ [x]) = List.filter p l ++ (if p x then [x] else []).
Proof. by rewrite List.filter_app. Qed.

(** The new row of an addition records the submission. *)
Lemma added_row_records d folder s V remark :
  let res := add_candidate d (load_tracker folder) s V remark in
  ∃ old new_row,
    rows (table_of (u_store res)) = old ++ [new_row]
    ∧ Forall2 (kept (table_of folder)) (rows (table_of folder)) old
    ∧ records d V new_row
    ∧ cell new_row "Profile_Remark" = stored (VStr remark)
    ∧ cell new_row "Resume_Screening_Status" = VStr (status_under remark s).
Proof.
  intros res. destruct (added_row d folder s V remark)
    as (old & nr & H1 & H2 & H3 & H4 & H5 & H6).
  exists old, nr. split_and!; try done.
  unfold records, Spec.email_of, Spec.name_of, Spec.phone_of.
  split_and!; [| | |done]; apply H6, identity_not_written;
    rewrite !elem_of_cons; auto.
Qed.

Lemma filter_no_identity k l l' :
  Forall2 same_identity l l' →
  List.filter (has_identity k) l = [] → List.filter (has_identity k) l' = [].
Proof.
  apply filter_nil_same_identity. intros r r' H. by apply has_identity_same.
Qed.

(** An update that adds a row: the table read back. *)
Lemma update_added d folder s V allow :
  let res := update_tracker_excel d folder s V allow in
  u_added res = true →
  ∃ remark old new_row,
    res = add_candidate d (load_tracker folder) s V remark
    ∧ rows (table_of (u_store res)) = old ++ [new_row]
    ∧ Forall2 (kept (table_of folder)) (rows (table_of folder)) old
    ∧ records d V new_row
    ∧ cell new_row "Profile_Remark" = stored (VStr remark)
    ∧ cell new_row "Resume_Screening_Status" = VStr (status_under remark s)
    ∧ (remark = "Unique Profile"
       ∧ Spec.resolve d V (rows (table_of folder)) = None
       ∨ remark = "Duplicate Profile"
         ∧ ∃ t m, Spec.resolve d V (rows (table_of folder)) = Some (t, m)
                  ∧ List.find (is_same_vendor (vendor_norm V)) m = None).
Proof.
  intros res. destruct (update_cases d folder s V allow)
    as [(t & m & r & _ & _ & H)|[(t & m & E & Hf & H)|[E H]]];
    fold res in H; rewrite H; [done| |]; intros _.
  - destruct (added_row_records d folder s V "Duplicate Profile")
      as (old & nr & H1 & H2 & H3 & H4 & H5).
    exists "Duplicate Profile", old, nr. split_and!; try done.
    right. split; [done|]. by exists t, m.
  - destruct (added_row_records d folder s V "Unique Profile")
      as (old & nr & H1 & H2 & H3 & H4 & H5).
    exists "Unique Profile", old, nr. split_and!; try done. by left.
Qed.

(** A stored record of the candidate from the same vendor blocks. *)
Lemma update_blocked d folder s V allow k r :
  Spec.identity_key d V = Some k →
  r ∈ rows (table_of folder) → has_identity k r = true →
  is_same_vendor (vendor_norm V) r = true →
  let res := update_tracker_excel d folder s V allow in
  ∃ m same,
    Spec.resolve d V (rows (table_of folder)) = Some (tier_of k, m)
    ∧ same ∈ m ∧ is_same_vendor (vendor_norm V) same = true
    ∧ res = mkUpdate folder d false (Spec.key (tier_of k) +:+ "_same_vendor")
              (row_get (table_of folder) same "Profile_Remark" (VStr ""))
              (Some (row_get (table_of folder) same "Resume_Screening_Status"
                       (VStr "Unknown"))).
Proof.
  intros Hk Hr Hhas Hsame res.
  assert (r ∈ List.filter (has_identity k) (rows (table_of folder))) as Hin.
  { by apply elem_of_bool_filter. }
  destruct (List.filter (has_identity k) (rows (table_of folder)))
    as [|x m] eqn:Hf; [by apply elem_of_nil in Hin|].
  pose proof (resolve_by_key d V _ k x m Hk Hf) as Hres.
  destruct (List.find (is_same_vendor (vendor_norm V)) (x :: m)) as [same|]
    eqn:Hfind.
  2:{ pose proof (proj1 (find_none_iff _ _) Hfind r Hin). congruence. }
  exists (x :: m), same. apply find_some_elem in Hfind as Hs.
  destruct Hs as [Hs1 Hs2]. split_and!; try done.
  subst res. by rewrite update_by_resolution, Hres, Hfind.
Qed.

(** ** C3 *)

(** C3. A candidate with an identity key is submitted twice by the same
    vendor, whose name is not blank, without override. The second call
    changes nothing in the store and returns: not added, a reason that
    ends in "_same_vendor", and the status stored in a matching row of
    that vendor. When the tracker held no record of the candidate before,
    it holds exactly one after the two calls. *)
Theorem resubmission_is_blocked (d d2 : pydict) (folder : store)
    (s1 s2 : Screening) (V : string) (k : Spec.identity) :
  vendor_norm V ≠ "" →
  Spec.identity_key d V = Some k →
  Spec.same_fields d d2 →
  let r1 := update_tracker_excel d folder s1 V false in
  let r2 := update_tracker_excel d2 (u_store r1) s2 V false in
  let table := table_of (u_store r1) in
  u_store r2 = u_store r1
  ∧ u_added r2 = false
  ∧ PyStr.endswith (u_reason r2) "_same_vendor" = true
  ∧ (∃ t m same,
       Spec.resolve d V (rows table) = Some (t, m)
       ∧ same ∈ m ∧ is_same_vendor (vendor_norm V) same = true
       ∧ u_reason r2 = Spec.key t +:+ "_same_vendor"
       ∧ u_status r2
         = Some (row_get table same "Resume_Screening_Status" (VStr "Unknown")))
  ∧ (Spec.resolve d V (rows (table_of folder)) = None →
     ∃ t new_row,
       Spec.resolve d V (rows (table_of (u_store r2))) = Some (t, [new_row])).
Proof.
  intros Hv Hk Hsf r1 r2 table.
  pose proof (same_fields_identity_key d d2 V Hsf) as Hk2. rewrite Hk in Hk2.
  destruct (u_added r1) eqn:Hadd.
  - destruct (update_added d folder s1 V false Hadd)
      as (remark & old & nr & _ & Hrows & Hold & Hrec & _).
    fold r1 table in Hrows.
    assert (has_identity k nr = true) as Hhas.
    { apply (records_has_identity d V V nr k); auto. }
    assert (nr ∈ rows table) as Hin.
    { rewrite Hrows. apply elem_of_app. right. by left. }
    destruct (update_blocked d2 (u_store r1) s2 V false k nr Hk2 Hin Hhas
                (records_same_vendor d V nr Hrec Hv))
      as (m & same & Hres & Hsame & Hsv & H2).
    fold r2 table in H2, Hres. rewrite (same_fields_resolve d d2 V _ Hsf) in Hres.
    rewrite H2. cbn [u_store u_added u_reason u_status]. split_and!.
    + done.
    + done.
    + apply endswith_same.
    + by exists (tier_of k), m, same.
    + intros Hnone. exists (tier_of k), nr.
      apply (resolve_by_key d V _ k nr []); [done|].
      fold table. rewrite Hrows, filter_snoc, Hhas.
      rewrite (filter_no_identity k (rows (table_of folder)) old); [done| |].
      * exact (kept_same_identity _ _ _ Hold).
      * exact (resolve_None_key d V _ k Hk Hnone).
  - destruct (update_cases d folder s1 V false)
      as [(t & m & r & E & Hf & H)|[(t & m & _ & _ & H)|[_ H]]];
      fold r1 in H.
    2,3: rewrite H, (proj1 (add_candidate_result _ _ _ _ _)) in Hadd; done.
    assert (u_store r1 = folder) as Hst by by rewrite H.
    subst r2 table. rewrite Hst, update_by_resolution.
    rewrite (same_fields_resolve d d2 V _ Hsf), E, Hf.
    cbn [u_store u_added u_reason u_status].
    apply find_some_elem in Hf as [Hin Hsame]. split_and!.
    + done.
    + done.
    + apply endswith_same.
    + by exists t, m, r.
    + intros Hnone. congruence.
Qed.

(** The scenario's first two submissions. *)
Lemma resubmission_is_blocked_witness :
  u_added Scenario.second = false
  ∧ PyStr.endswith (u_reason Scenario.second) "_same_vendor" = true.
Proof.
  assert (vendor_norm "Acme" ≠ "") as Hv by (vm_compute; discriminate).
  assert (Spec.identity_key Scenario.jane "Acme" = Some (Spec.Email "a@x.com"))
    as Hk by (vm_compute; reflexivity).
  destruct (resubmission_is_blocked Scenario.jane (u_details Scenario.first)
              Missing Scenario.shortlist Scenario.reject "Acme" _ Hv Hk
              (same_fields_fill _ _ _ _))
    as (_ & H1 & H2 & _).
  split; [exact H1|exact H2].
Defined.

(** ** C4 *)




(** ** The row a conversion is written to *)



Lemma first_index_lookup (p : row → bool) l i :
  first_index p l = Some i → ∃ r, l !! i = Some r ∧ p r = true.
Proof.
  revert i. induction l as [|x l IH]; intros i; simpl; [done|].
  destruct (p x) eqn:Hp.
  - intros [= <-]. by exists x.
  - destruct (first_index p l) as [j|]; [|done]. intros [= <-].
    by apply IH.
Qed.










(** ** C9 *)

